(** * Bulk insertion: flattening credit records into fixed-width CSV rows

    A shallow embedding of [bulk.py]: the value sanitizer [safe_value], the
    flattening engine [flatten_segment_to_fields], the seven segment row
    builders, the record expander [generate_all_segment_rows] and the
    emission loop of [generate_csv_from_json], followed by the properties
    the specification states about them.

    Conventions of the embedding.
    - A Python [str] is a sequence of Unicode code points: [pystr] is a
      list of [N].  [py "abc"] turns an ASCII literal into such a list.
    - The data [json.load] returns is a [json]: a tagged union of the JSON
      shapes.  A mapping keeps its entries in order in an association list.
      A float is carried by the text [str()] gives for it.
    - A Python exception is the [Raise] case of [result]. *)

From Stdlib Require Import Strings.String Strings.Ascii.
From Stdlib Require Import NArith ZArith Bool Lia DecimalString.
From Stdlib Require Import List.
Import ListNotations.

(** ** Strings and JSON values *)

Definition char := N.
Definition pystr := list char.

(** An ASCII character and an ASCII literal as Python text. *)
Definition chr (a : ascii) : char := N_of_ascii a.

Definition py (s : string) : pystr := map N_of_ascii (list_ascii_of_string s).

Fixpoint str_eqb (a b : pystr) : bool :=
  match a, b with
  | [], [] => true
  | x :: a', y :: b' => (x =? y)%N && str_eqb a' b'
  | _, _ => false
  end.

(** The keys of a mapping are distinct, as in a Python [dict]; floats are
    carried by their text, e.g. [JFloat (py "1.5")]. *)
Unset Elimination Schemes.
Inductive json : Type :=
| JNull
| JBool (b : bool)
| JInt (z : Z)
| JFloat (text : pystr)
| JStr (s : pystr)
| JList (items : list json)
| JDict (entries : list (pystr * json)).
Set Elimination Schemes.

Inductive exn : Type := AttributeError | TypeError | UnicodeEncodeError.

Inductive result (A : Type) : Type :=
| OK (a : A)
| Raise (e : exn).
Arguments OK {A} a.
Arguments Raise {A} e.

Definition bind {A B : Type} (m : result A) (k : A -> result B) : result B :=
  match m with
  | OK a => k a
  | Raise e => Raise e
  end.

Notation "x <- m ;; k" := (bind m (fun x => k))
  (at level 61, m at next level, right associativity).

(** ** The Python built-ins the program calls *)

Module Py.

Local Open Scope N_scope.

(** [str.isspace] on one code point, the table behind the argument-less
    [strip()] and [split()]. *)
Definition isspace (c : char) : bool :=
  ((0x09 <=? c) && (c <=? 0x0D)) || ((0x1C <=? c) && (c <=? 0x20))
  || (c =? 0x85) || (c =? 0xA0) || (c =? 0x1680)
  || ((0x2000 <=? c) && (c <=? 0x200A))
  || (c =? 0x2028) || (c =? 0x2029) || (c =? 0x202F) || (c =? 0x205F)
  || (c =? 0x3000).

Fixpoint lstrip (s : pystr) : pystr :=
  match s with
  | [] => []
  | c :: s' => if isspace c then lstrip s' else s
  end.

Fixpoint rstrip (s : pystr) : pystr :=
  match s with
  | [] => []
  | c :: s' =>
      match rstrip s' with
      | [] => if isspace c then [] else [c]
      | t => c :: t
      end
  end.

(** [s.strip()] *)
Definition strip (s : pystr) : pystr := rstrip (lstrip s).

(** [split_from word s]: the words of [s], [word] being the word read so
    far. *)
Fixpoint split_from (word s : pystr) : list pystr :=
  match s with
  | [] => match word with [] => [] | _ => [word] end
  | c :: s' =>
      if isspace c
      then match word with
           | [] => split_from [] s'
           | _ => word :: split_from [] s'
           end
      else split_from (word ++ [c]) s'
  end.

(** [s.split()]: the maximal runs of non-whitespace, in order. *)
Definition split (s : pystr) : list pystr := split_from [] s.

(** [sep.join(parts)] *)
Fixpoint join (sep : pystr) (parts : list pystr) : pystr :=
  match parts with
  | [] => []
  | [p] => p
  | p :: rest => p ++ sep ++ join sep rest
  end.

(** [s.replace(old, new)] where [old] and [new] are one character each,
    the only way the program calls it. *)
Definition replace (old new : char) (s : pystr) : pystr :=
  map (fun c => if c =? old then new else c) s.

(** [str(z)] for an integer. *)
Definition str_int (z : Z) : pystr := py (NilZero.string_of_int (Z.to_int z)).

Definition hex_digit (n : N) : char := if n <? 10 then 48 + n else 87 + n.

Fixpoint hex_fixed (width : nat) (n : N) : pystr :=
  match width with
  | O => []
  | S w => hex_fixed w (n / 16) ++ [hex_digit (n mod 16)]
  end.

Section Repr.

(** [str.isprintable] on one code point, a table of the Unicode
    database; it only matters for the text of a string nested in a
    list or a mapping. *)
Variable isprintable : char -> bool.

Definition escape (quote c : char) : pystr :=
  if (c =? quote) || (c =? 0x5C) then [0x5C; c]
  else if c =? 0x09 then py "\t"
  else if c =? 0x0A then py "\n"
  else if c =? 0x0D then py "\r"
  else if (c <? 0x20) || (c =? 0x7F) then py "\x" ++ hex_fixed 2 c
  else if c <? 0x7F then [c]
  else if isprintable c then [c]
  else if c <=? 0xFF then py "\x" ++ hex_fixed 2 c
  else if c <=? 0xFFFF then py "\u" ++ hex_fixed 4 c
  else py "\U" ++ hex_fixed 8 c.

(** [repr(s)] for a string: single quotes unless the string has a
    single quote and no double quote. *)
Definition repr_str (s : pystr) : pystr :=
  let quote :=
    if existsb (N.eqb 0x27) s && negb (existsb (N.eqb 0x22) s)
    then 0x22 else 0x27 in
  [quote] ++ flat_map (escape quote) s ++ [quote].

Fixpoint repr (v : json) : pystr :=
  match v with
  | JNull => py "None"
  | JBool true => py "True"
  | JBool false => py "False"
  | JInt z => str_int z
  | JFloat text => text
  | JStr s => repr_str s
  | JList items =>
      py "[" ++ join (py ", ") (map repr items) ++ py "]"
  | JDict entries =>
      py "{"
      ++ join (py ", ")
           (map (fun kv => repr_str (fst kv) ++ py ": " ++ repr (snd kv))
              entries)
      ++ py "}"
  end.

(** [str(v)]: a string is itself, anything else is its [repr]. *)
Definition str (v : json) : pystr :=
  match v with
  | JStr s => s
  | _ => repr v
  end.

End Repr.

(** Truth value of [v] in [if v:]. *)
Definition truthy (v : json) : bool :=
  match v with
  | JNull => false
  | JBool b => b
  | JInt z => negb (z =? 0)%Z
  | JFloat text => negb (str_eqb text (py "0.0") || str_eqb text (py "-0.0"))
  | JStr s => match s with [] => false | _ => true end
  | JList items => match items with [] => false | _ => true end
  | JDict entries => match entries with [] => false | _ => true end
  end.

Fixpoint lookup (key : pystr) (entries : list (pystr * json)) : option json :=
  match entries with
  | [] => None
  | (k, v) :: rest => if str_eqb k key then Some v else lookup key rest
  end.

(** [obj.get(key, default)]: only a mapping has the method. *)
Definition get (obj : json) (key : pystr) (default : json) : result json :=
  match obj with
  | JDict entries =>
      OK (match lookup key entries with Some v => v | None => default end)
  | _ => Raise AttributeError
  end.

(** [len(x)] of a finite sequence. *)
Definition len {A : Type} (x : list A) : Z := Z.of_nat (length x).

(** [len(v)]: a number, a boolean and [None] have no length. *)
Definition len_value (v : json) : result Z :=
  match v with
  | JList items => OK (len items)
  | JDict entries => OK (len entries)
  | JStr s => OK (len s)
  | _ => Raise TypeError
  end.

(** The elements [for x in v] visits: the items of a list, the keys of a
    mapping, the characters of a string. *)
Definition iter (v : json) : result (list json) :=
  match v with
  | JList items => OK items
  | JDict entries => OK (map (fun kv => JStr (fst kv)) entries)
  | JStr s => OK (map (fun c => JStr [c]) s)
  | _ => Raise TypeError
  end.

(** [x[lo:hi]] for constant bounds [0 <= lo <= hi]; the bounds are clipped
    to the length of [x]. *)
Definition slice {A : Type} (lo hi : nat) (x : list A) : list A :=
  skipn lo (firstn hi x).

(** [val == s] for a string literal [s]. *)
Definition eq_str (v : json) (s : pystr) : bool :=
  match v with
  | JStr t => str_eqb t s
  | _ => false
  end.

(** A code point of the surrogate range, which a [\u] escape of a JSON
    text can leave alone in a string and which UTF-8 cannot encode. *)
Definition surrogate (c : char) : bool := (0xD800 <=? c) && (c <=? 0xDFFF).

(** [s.encode('utf-8')] succeeds. *)
Definition encodable (s : pystr) : bool := forallb (fun c => negb (surrogate c)) s.

End Py.

(** ** The program *)

Section Bulk.

(** The Unicode table [Py.repr] consults. *)
Variable isprintable : char -> bool.

Definition is_none (v : json) : bool :=
  match v with
  | JNull => true
  | _ => false
  end.

(** [safe_value(val)] *)
Definition safe_value (val : json) : pystr :=
  if is_none val || Py.eq_str val (py "") || Py.eq_str val (py "null")
  then py ""
  else
    let val_str := Py.strip (Py.str isprintable val) in
    let val_str :=
      Py.replace (chr "013") (chr " ") (Py.replace (chr "010") (chr " ") val_str) in
    let val_str := Py.join (py " ") (Py.split val_str) in
    let val_str := Py.replace (chr "|") (chr "-") val_str in
    val_str.

(** [parse_date_ddmmyyyy(date_str)]: [None] or the rearranged text.  The
    test of the [if] is evaluated left to right, so [len] is only asked of a
    truthy value that is not ['null']; it raises on a number or a boolean,
    outside the [try].  Inside the [try], slicing a string or a list
    succeeds (a slice of a list is formatted by [str]), and slicing a
    mapping raises, which the bare [except] turns into [None]. *)
Definition parse_date_ddmmyyyy (date_str : json) : result (option pystr) :=
  if negb (Py.truthy date_str) || Py.eq_str date_str (py "null")
  then OK None
  else
    n <- Py.len_value date_str ;;
    if negb (n =? 8)%Z
    then OK None
    else
      match date_str with
      | JStr s =>
          OK (Some (Py.slice 4 8 s ++ py "-" ++ Py.slice 2 4 s ++ py "-"
                    ++ Py.slice 0 2 s))
      | JList items =>
          OK (Some (Py.str isprintable (JList (Py.slice 4 8 items)) ++ py "-"
                    ++ Py.str isprintable (JList (Py.slice 2 4 items)) ++ py "-"
                    ++ Py.str isprintable (JList (Py.slice 0 2 items))))
      | _ => OK None
      end.

(** [flatten_segment_to_fields(segment_data, parse_dates)].  The inner
    fixpoints are the [for] loops; [fields.extend] and [fields.append]
    become concatenation. *)
Fixpoint flatten_segment_to_fields (segment_data : json) (parse_dates : bool)
  {struct segment_data} : list pystr :=
  match segment_data with
  | JDict entries =>
      (fix each_entry (es : list (pystr * json)) : list pystr :=
         match es with
         | [] => []
         | (key, value) :: es' =>
             match value with
             | JDict _ => flatten_segment_to_fields value parse_dates
             | JList items =>
                 (fix each_item (its : list json) : list pystr :=
                    match its with
                    | [] => []
                    | item :: its' =>
                        match item with
                        | JDict _ | JList _ =>
                            flatten_segment_to_fields item parse_dates
                        | _ => [safe_value item]
                        end ++ each_item its'
                    end) items
             | _ => [safe_value value]
             end ++ each_entry es'
         end) entries
  | JList items =>
      (fix each_item (its : list json) : list pystr :=
         match its with
         | [] => []
         | item :: its' =>
             match item with
             | JDict _ | JList _ => flatten_segment_to_fields item parse_dates
             | _ => [safe_value item]
             end ++ each_item its'
         end) items
  | _ => [safe_value segment_data]
  end.

(** [while len(row) < width: row.append('')] *)
Definition pad (width : nat) (row : list json) : list json :=
  row ++ repeat (JStr (py "")) (width - length row).

(** The body the seven row builders share: they differ in the segment
    code and in the default of [record.get]. *)
Definition segment_row (code : pystr) (default : json)
  (unique_id record garbage_per_segment : json) : result (list json) :=
  segment <- Py.get record code default ;;
  let row := [unique_id; JStr code] in
  let row :=
    if Py.truthy segment
    then row ++ map JStr (flatten_segment_to_fields segment false)
    else row in
  let row := pad 52 row in
  residual_value <-
    (if Py.truthy garbage_per_segment
     then garbage <- Py.get garbage_per_segment code JNull ;;
          OK (safe_value garbage)
     else OK (py "")) ;;
  let row := row ++ [JStr residual_value] in
  let row := row ++ repeat (JStr (py "")) 6 in
  OK (firstn 59 row).

Definition generate_pn_segment_row := segment_row (py "PN") (JDict []).
Definition generate_id_segment_row := segment_row (py "ID") (JList []).
Definition generate_pt_segment_row := segment_row (py "PT") (JList []).
Definition generate_ec_segment_row := segment_row (py "EC") (JDict []).
Definition generate_pa_segment_row := segment_row (py "PA") (JList []).
Definition generate_tl_segment_row := segment_row (py "TL") (JDict []).
Definition generate_th_segment_row := segment_row (py "TH") (JList []).

(** [generate_all_segment_rows(unique_id, record, garbage_per_segment)];
    its [debug] argument is never read. *)
Definition generate_all_segment_rows
  (unique_id record garbage_per_segment : json) : result (list (list json)) :=
  pn <- generate_pn_segment_row unique_id record garbage_per_segment ;;
  id <- generate_id_segment_row unique_id record garbage_per_segment ;;
  pt <- generate_pt_segment_row unique_id record garbage_per_segment ;;
  ec <- generate_ec_segment_row unique_id record garbage_per_segment ;;
  pa <- generate_pa_segment_row unique_id record garbage_per_segment ;;
  tl <- generate_tl_segment_row unique_id record garbage_per_segment ;;
  th <- generate_th_segment_row unique_id record garbage_per_segment ;;
  OK [pn; id; pt; ec; pa; tl; th].

(** The CSV header of [generate_csv_from_json]: 59 column names. *)
Definition header : list pystr :=
  [py "Unique_ID"; py "Segment_Name"]
  ++ map (fun i => py "Field" ++ Py.str_int (Z.of_nat i)) (seq 1 50)
  ++ [py "Residual_Value"; py "System"; py "Processing_Stage";
      py "Processing_Status"; py "Bot_Status"; py "Failure_Reason";
      py "Forced_Status"].

(** The local variables of [generate_csv_from_json] that change while it
    runs; [csvfile] is the sequence of rows written to the file. *)
Record locals : Type := Locals {
  csvfile : list (list pystr);
  rows_written : Z;
  problematic_rows : Z;
  all_rows_batch : list (list pystr)
}.

Definition batch_size : Z := 1000.

(** [for cell in row: ...], the body of the [try], from the cell loop to
    the end of the row.  It answers the cleaned row, or the exception
    that ended it, together with the issue counter as the body left it: an
    increment made before an exception stays.  Comparing with [''],
    [str], [strip], [len] and slicing are the only operations. *)
Fixpoint clean_cells (row : list json) (cleaned_row : list pystr)
  (problematic : Z) : result (list pystr) * Z :=
  match row with
  | [] => (OK cleaned_row, problematic)
  | cell :: row' =>
      if Py.eq_str cell (py "")
      then clean_cells row' (cleaned_row ++ [py ""]) problematic
      else
        let cell_str := Py.strip (Py.str isprintable cell) in
        if (Py.len cell_str >? 8000)%Z
        then clean_cells row' (cleaned_row ++ [firstn (Z.to_nat 8000) cell_str])
               (problematic + 1)%Z
        else clean_cells row' (cleaned_row ++ [cell_str]) problematic
  end.

(** What follows the body of the [try]: [all_rows_batch.append(cleaned_row)]
    when the body came to its end, and the [except Exception] clause when
    it raised, which counts one more issue and appends nothing. *)
Definition except_row (st : locals) (attempt : result (list pystr) * Z) : locals :=
  match attempt with
  | (OK cleaned_row, problematic) =>
      {| csvfile := csvfile st;
         rows_written := rows_written st;
         problematic_rows := problematic;
         all_rows_batch := all_rows_batch st ++ [cleaned_row] |}
  | (Raise _, problematic) =>
      {| csvfile := csvfile st;
         rows_written := rows_written st;
         problematic_rows := (problematic + 1)%Z;
         all_rows_batch := all_rows_batch st |}
  end.

(** One turn of [for row in segment_rows]. *)
Definition clean_row (st : locals) (row : list json) : locals :=
  except_row st (clean_cells row [] (problematic_rows st)).

(** Every cell of [rows] can be encoded. *)
Definition encodable_rows (rows : list (list pystr)) : bool :=
  forallb (forallb Py.encodable) rows.

(** [csv_writer.writerows(rows)] on a file opened with [encoding='utf-8']:
    the rows are appended to the file, unless a cell cannot be encoded,
    which raises.  The quotes, commas and line ends the writer adds are
    ASCII. *)
Definition writerows (file rows : list (list pystr)) : result (list (list pystr)) :=
  if encodable_rows rows
  then OK (file ++ rows)
  else Raise UnicodeEncodeError.

(** The batch write inside the loop: [csv_writer.writerows(all_rows_batch)],
    then the two assignments that follow it. *)
Definition flush (st : locals) : result locals :=
  file <- writerows (csvfile st) (all_rows_batch st) ;;
  OK {| csvfile := file;
        rows_written := (rows_written st + Py.len (all_rows_batch st))%Z;
        problematic_rows := problematic_rows st;
        all_rows_batch := [] |}.

(** The first four statements of the loop over the records: the three
    lookups in the envelope and the call of the record expander. *)
Definition envelope_rows (record_obj : json) : result (list (list json)) :=
  unique_id <- Py.get record_obj (py "unique_id") JNull ;;
  record <- Py.get record_obj (py "record") (JDict []) ;;
  garbage_per_segment <- Py.get record_obj (py "garbage_per_segment") (JDict []) ;;
  generate_all_segment_rows unique_id record garbage_per_segment.

(** One turn of [for idx, record_obj in enumerate(records)], from its
    first statement to the end of the loop over the rows; [idx] is only
    read by the batch test that follows. *)
Definition process_record (idx : Z) (record_obj : json) (st : locals)
  : result locals :=
  segment_rows <- envelope_rows record_obj ;;
  OK (fold_left clean_row segment_rows st).

(** The batch test that ends the turn: [if (idx + 1) % batch_size == 0]. *)
Definition write_batch (idx : Z) (st : locals) : result locals :=
  if ((idx + 1) mod batch_size =? 0)%Z then flush st else OK st.

Fixpoint process_records (idx : Z) (records : list json) (st : locals)
  : result locals :=
  match records with
  | [] => OK st
  | record_obj :: rest =>
      st <- process_record idx record_obj st ;;
      st <- write_batch idx st ;;
      process_records (idx + 1)%Z rest st
  end.

(** [if all_rows_batch: ...] after the loop: the rows left in the batch are
    written and counted; the list itself is not emptied. *)
Definition write_remaining (st : locals) : result locals :=
  match all_rows_batch st with
  | [] => OK st
  | _ :: _ =>
      file <- writerows (csvfile st) (all_rows_batch st) ;;
      OK {| csvfile := file;
            rows_written := (rows_written st + Py.len (all_rows_batch st))%Z;
            problematic_rows := problematic_rows st;
            all_rows_batch := all_rows_batch st |}
  end.

(** [generate_csv_from_json] on the document [data] that [json.load]
    returned.  The result pairs the value the function returns with its
    final local variables, which hold the rows written to the file.
    Opening the files and printing are left out. *)
Definition generate_csv_from_json (data : json) : result (Z * locals) :=
  records <- Py.get data (py "Records") (JList []) ;;
  total_records <- Py.len_value records ;;
  envelopes <- Py.iter records ;;
  let st :=
    {| csvfile := [header]; rows_written := 0; problematic_rows := 0;
       all_rows_batch := [] |} in
  st <- process_records 0 envelopes st ;;
  st <- write_remaining st ;;
  OK (rows_written st, st).

End Bulk.

(** ** Vocabulary of the statements *)

Definition scalar (v : json) : bool :=
  match v with
  | JDict _ | JList _ => false
  | _ => true
  end.

Definition mapping (v : json) : bool :=
  match v with
  | JDict _ => true
  | _ => false
  end.

(** A [garbage_per_segment] the row builders accept: a mapping, or anything
    falsy (which they never look into). *)
Definition garbage_ok (g : json) : bool := negb (Py.truthy g) || mapping g.

(** The value of [entries.get(key, default)]. *)
Definition field (key : pystr) (default : json) (entries : list (pystr * json)) : json :=
  match Py.lookup key entries with
  | Some v => v
  | None => default
  end.

(** An envelope of the shape the data model describes: a mapping whose
    [record] is a mapping and whose [garbage_per_segment] is acceptable. *)
Definition well_shaped (record_obj : json) : bool :=
  match record_obj with
  | JDict entries =>
      mapping (field (py "record") (JDict []) entries)
      && garbage_ok (field (py "garbage_per_segment") (JDict []) entries)
  | _ => false
  end.

(** The seven segment codes in emission order. *)
Definition segment_codes : list pystr :=
  [py "PN"; py "ID"; py "PT"; py "EC"; py "PA"; py "TL"; py "TH"].

(** No two whitespace characters stand next to each other. *)
Fixpoint runs_collapsed (s : pystr) : bool :=
  match s with
  | [] => true
  | c :: s' =>
      match s' with
      | [] => true
      | c' :: _ => negb (Py.isspace c && Py.isspace c') && runs_collapsed s'
      end
  end.

(** What the sanitizer guarantees of its output: no newline, carriage
    return or pipe, no whitespace but the plain space, no two spaces in a
    row, nothing to trim at either end. *)
Definition sanitized (s : pystr) : Prop :=
  ~ In (chr "010") s /\ ~ In (chr "013") s /\ ~ In (chr "|") s
  /\ (forall c, In c s -> Py.isspace c = true -> c = chr " ")
  /\ runs_collapsed s = true
  /\ Py.strip s = s.

Fixpoint traverse {A B : Type} (f : A -> result B) (l : list A) : result (list B) :=
  match l with
  | [] => OK []
  | a :: l' => b <- f a ;; bs <- traverse f l' ;; OK (b :: bs)
  end.

(** A word: a non-empty run of characters none of which is whitespace. *)
Definition word (w : pystr) : Prop :=
  w <> [] /\ Forall (fun c => Py.isspace c = false) w.

(** The rows written so far and those waiting in the batch. *)
Definition emitted (st : locals) : list (list pystr) :=
  csvfile st ++ all_rows_batch st.

Section Cleaning.

Variable isprintable : char -> bool.

(** The text the cleaning pass works on: [str(cell).strip()]. *)
Definition cell_text (cell : json) : pystr := Py.strip (Py.str isprintable cell).

Definition overlong (cell : json) : bool := (Py.len (cell_text cell) >? 8000)%Z.

(** The cell the cleaning pass writes for [cell]. *)
Definition clean_cell (cell : json) : pystr :=
  if Py.eq_str cell (py "") then py ""
  else if overlong cell then firstn (Z.to_nat 8000) (cell_text cell)
  else cell_text cell.

(** The number of cells of [rows] that are cut. *)
Definition cut_cells (rows : list (list json)) : Z :=
  Py.len (filter overlong (concat rows)).

(** The segment rows of every envelope of the document, in order. *)
Definition generated_rows (data : json) : result (list (list json)) :=
  records <- Py.get data (py "Records") (JList []) ;;
  envelopes <- Py.iter records ;;
  rowss <- traverse (envelope_rows isprintable) envelopes ;;
  OK (concat rowss).

(** The seven row builders, in the order the expander calls them. *)
Definition segment_builders : list (json -> json -> json -> result (list json)) :=
  [generate_pn_segment_row isprintable; generate_id_segment_row isprintable;
   generate_pt_segment_row isprintable; generate_ec_segment_row isprintable;
   generate_pa_segment_row isprintable; generate_tl_segment_row isprintable;
   generate_th_segment_row isprintable].

End Cleaning.

(** ** Vocabulary of the further properties *)

(** The text [DDMMYYYY] recovered from [YYYY-MM-DD]. *)
Definition unparse_date (out : pystr) : pystr :=
  Py.slice 8 10 out ++ Py.slice 5 7 out ++ Py.slice 0 4 out.

(** The values [len] accepts. *)
Definition sized (v : json) : bool :=
  match v with
  | JStr _ | JList _ | JDict _ => true
  | _ => false
  end.

Section Layout.

Variable isprintable : char -> bool.

(** The fields a row builder takes from a segment value: none when the
    value is falsy. *)
Definition segment_fields (segment : json) : list pystr :=
  if Py.truthy segment
  then flatten_segment_to_fields isprintable segment false
  else [].

(** The residual value a row builder takes from [garbage_per_segment]. *)
Definition residual_of (code : pystr) (garbage_per_segment : json) : pystr :=
  match garbage_per_segment with
  | JDict ((_ :: _) as entries) => safe_value isprintable (field code JNull entries)
  | _ => py ""
  end.

(** The seven row builders with the segment code each one writes. *)
Definition segment_table
  : list (pystr * (json -> json -> json -> result (list json))) :=
  [(py "PN", generate_pn_segment_row isprintable);
   (py "ID", generate_id_segment_row isprintable);
   (py "PT", generate_pt_segment_row isprintable);
   (py "EC", generate_ec_segment_row isprintable);
   (py "PA", generate_pa_segment_row isprintable);
   (py "TL", generate_tl_segment_row isprintable);
   (py "TH", generate_th_segment_row isprintable)].

End Layout.

(** [len(cell) <= 8000] *)
Definition within_limit (cell : pystr) : Prop := (Py.len cell <= 8000)%Z.

(** A cell that is a string of the shape the sanitizer guarantees. *)
Definition text_cell (cell : json) : Prop :=
  exists s, cell = JStr s /\ sanitized s.

(** A text without newline, carriage return and pipe. *)
Definition free_of_breaks (s : pystr) : Prop :=
  ~ In (chr "010") s /\ ~ In (chr "013") s /\ ~ In (chr "|") s.

(** ** Example documents

    The table of printable characters is only consulted for the text of a
    string nested in a list or a mapping that is itself turned into text;
    the examples have none, and are run with the table that holds for
    every character. *)

Definition example_table : char -> bool := fun _ => true.

(** [{"unique_id": "U1", "record": {"PN": {"name": "Jo|hn"}},
      "garbage_per_segment": {"PN": "g1"}}] *)
Definition envelope_U1 : json :=
  JDict [(py "unique_id", JStr (py "U1"));
         (py "record", JDict [(py "PN", JDict [(py "name", JStr (py "Jo|hn"))])]);
         (py "garbage_per_segment", JDict [(py "PN", JStr (py "g1"))])].

(** An envelope whose [unique_id] is 9000 times the letter x. *)
Definition envelope_long : json :=
  JDict [(py "unique_id", JStr (repeat (chr "x") (Z.to_nat 9000)));
         (py "record", JDict [])].


(** An envelope without the key [unique_id]. *)
Definition envelope_anonymous : list (pystr * json) :=
  [(py "record", JDict [(py "ID", JList [JInt 7])])].

(** A well-shaped envelope whose [unique_id] is a lone surrogate, the
    JSON text ["\ud800"]. *)
Definition envelope_surrogate : json :=
  JDict [(py "unique_id", JStr [0xD800%N]); (py "record", JDict [])].

Definition document (envelopes : list json) : json :=
  JDict [(py "Records", JList envelopes)].

Definition initial_locals : locals :=
  {| csvfile := [header]; rows_written := 0; problematic_rows := 0;
     all_rows_batch := [] |}.


(** ** Induction over JSON values *)

Lemma json_ind (P : json -> Prop)
  (Hnull : P JNull)
  (Hbool : forall b, P (JBool b))
  (Hint : forall z, P (JInt z))
  (Hfloat : forall text, P (JFloat text))
  (Hstr : forall s, P (JStr s))
  (Hlist : forall items, Forall P items -> P (JList items))
  (Hdict : forall entries, Forall (fun kv => P (snd kv)) entries -> P (JDict entries)) :
  forall v, P v.
Proof.
  fix IH 1.
  intros [ | b | z | text | s | items | entries ].
  - exact Hnull.
  - apply Hbool.
  - apply Hint.
  - apply Hfloat.
  - apply Hstr.
  - apply Hlist.
    induction items as [ | item items IHitems ]; constructor.
    + apply IH.
    + exact IHitems.
  - apply Hdict.
    induction entries as [ | [key v] entries IHentries ]; constructor.
    + apply IH.
    + exact IHentries.
Qed.

(** ** Words, joining and trimming *)

Lemma split_from_words (s w0 : pystr) :
  Forall (fun c => Py.isspace c = false) w0 ->
  Forall word (Py.split_from w0 s).
Proof.
  revert w0.
  induction s as [ | c s IH ]; intros w0 Hw0; simpl.
  - destruct w0 as [ | c0 w0 ]; constructor; [ | constructor ].
    split; [ discriminate | exact Hw0 ].
  - destruct (Py.isspace c) eqn:Hc.
    + destruct w0 as [ | c0 w0 ].
      * apply IH. constructor.
      * constructor.
        -- split; [ discriminate | exact Hw0 ].
        -- apply IH. constructor.
    + apply IH. apply Forall_app. split; [ exact Hw0 | ].
      constructor; [ exact Hc | constructor ].
Qed.

Lemma split_words (s : pystr) : Forall word (Py.split s).
Proof. apply split_from_words. constructor. Qed.

Lemma in_join (sep : pystr) (ws : list pystr) (c : char) :
  In c (Py.join sep ws) -> In c sep \/ exists w, In w ws /\ In c w.
Proof.
  induction ws as [ | w ws IH ]; simpl; [ intros [] | ].
  destruct ws as [ | w' ws ].
  - intros H. right. exists w. split; [ left; reflexivity | exact H ].
  - intros H. apply in_app_or in H. destruct H as [H | H].
    + right. exists w. split; [ left; reflexivity | exact H ].
    + apply in_app_or in H. destruct H as [H | H]; [ left; exact H | ].
      destruct (IH H) as [Hsep | [w0 [Hw0 Hc]]]; [ left; exact Hsep | ].
      right. exists w0. split; [ right; exact Hw0 | exact Hc ].
Qed.

Lemma join_snoc (sep : pystr) (ws : list pystr) (w : pystr) :
  ws <> [] -> Py.join sep (ws ++ [w]) = Py.join sep ws ++ sep ++ w.
Proof.
  induction ws as [ | w1 ws IH ]; intros Hne; [ contradiction Hne; reflexivity | ].
  destruct ws as [ | w2 ws ].
  - reflexivity.
  - change (Py.join sep ((w1 :: w2 :: ws) ++ [w]))
      with (w1 ++ sep ++ Py.join sep ((w2 :: ws) ++ [w])).
    rewrite IH by discriminate.
    change (Py.join sep (w1 :: w2 :: ws)) with (w1 ++ sep ++ Py.join sep (w2 :: ws)).
    rewrite <- !app_assoc. reflexivity.
Qed.

Lemma rev_join (sep : pystr) (ws : list pystr) :
  rev (Py.join sep ws) = Py.join (rev sep) (map (@rev char) (rev ws)).
Proof.
  induction ws as [ | w ws IH ]; [ reflexivity | ].
  destruct ws as [ | w' ws ].
  - reflexivity.
  - change (Py.join sep (w :: w' :: ws)) with (w ++ sep ++ Py.join sep (w' :: ws)).
    rewrite !rev_app_distr, IH.
    change (rev (w :: w' :: ws)) with (rev (w' :: ws) ++ [w]).
    rewrite map_app.
    change (map (@rev char) [w]) with [rev w].
    rewrite join_snoc.
    + rewrite <- app_assoc. reflexivity.
    + intros Hnil. apply map_eq_nil in Hnil.
      apply (f_equal (@rev pystr)) in Hnil. rewrite rev_involutive in Hnil.
      discriminate Hnil.
Qed.

Lemma replace_join (old new : char) (sep : pystr) (ws : list pystr) :
  Py.replace old new (Py.join sep ws)
  = Py.join (Py.replace old new sep) (map (Py.replace old new) ws).
Proof.
  induction ws as [ | w ws IH ]; [ reflexivity | ].
  destruct ws as [ | w' ws ].
  - reflexivity.
  - change (Py.join sep (w :: w' :: ws)) with (w ++ sep ++ Py.join sep (w' :: ws)).
    unfold Py.replace in *. rewrite !map_app.
    exact (f_equal (fun t => _ ++ _ ++ t) IH).
Qed.

Lemma word_rev (w : pystr) : word w -> word (rev w).
Proof.
  intros [Hne Hall]. split.
  - intros Hnil. apply Hne. rewrite <- (rev_involutive w), Hnil. reflexivity.
  - apply Forall_rev. exact Hall.
Qed.

Lemma words_rev (ws : list pystr) :
  Forall word ws -> Forall word (map (@rev char) (rev ws)).
Proof.
  intros H. apply Forall_map. apply Forall_rev.
  revert H. apply Forall_impl. exact word_rev.
Qed.

Lemma join_words_head (ws : list pystr) :
  Forall word ws -> ws <> [] ->
  exists c t, Py.join (py " ") ws = c :: t /\ Py.isspace c = false.
Proof.
  intros Hws Hne.
  destruct ws as [ | w ws ]; [ contradiction Hne; reflexivity | ].
  inversion Hws as [ | w0 ws0 [Hwne Hw] Hrest ]; subst.
  destruct w as [ | c w ]; [ contradiction Hwne; reflexivity | ].
  inversion Hw; subst.
  destruct ws as [ | w' ws ].
  - exists c, w. split; [ reflexivity | assumption ].
  - exists c, (w ++ py " " ++ Py.join (py " ") (w' :: ws)).
    split; [ reflexivity | assumption ].
Qed.

Lemma lstrip_clean_head (s : pystr) :
  (forall c t, s = c :: t -> Py.isspace c = false) -> Py.lstrip s = s.
Proof.
  destruct s as [ | c s ]; intros H; [ reflexivity | ].
  simpl. rewrite (H c s eq_refl). reflexivity.
Qed.

Lemma lstrip_join_words (ws : list pystr) :
  Forall word ws -> Py.lstrip (Py.join (py " ") ws) = Py.join (py " ") ws.
Proof.
  intros Hws. destruct ws as [ | w ws ]; [ reflexivity | ].
  destruct (join_words_head _ Hws) as [c [t [Heq Hc]]]; [ discriminate | ].
  apply lstrip_clean_head. intros c0 t0 H0.
  rewrite Heq in H0. injection H0 as -> _. exact Hc.
Qed.

Lemma rstrip_clean_last (s : pystr) (c : char) :
  Py.isspace c = false -> Py.rstrip (s ++ [c]) = s ++ [c].
Proof.
  intros Hc. induction s as [ | a s IH ].
  - simpl. rewrite Hc. reflexivity.
  - change ((a :: s) ++ [c]) with (a :: (s ++ [c])).
    simpl Py.rstrip. rewrite IH.
    destruct s; reflexivity.
Qed.

Lemma rstrip_join_words (ws : list pystr) :
  Forall word ws -> Py.rstrip (Py.join (py " ") ws) = Py.join (py " ") ws.
Proof.
  intros Hws. destruct ws as [ | w ws ]; [ reflexivity | ].
  destruct (join_words_head _ (words_rev _ Hws)) as [c [t [Heq Hc]]].
  { intros Hnil. apply map_eq_nil in Hnil.
    apply (f_equal (@rev pystr)) in Hnil. rewrite rev_involutive in Hnil.
    discriminate Hnil. }
  assert (Hjoin : Py.join (py " ") (w :: ws) = rev t ++ [c]).
  { rewrite <- (rev_involutive (Py.join (py " ") (w :: ws))).
    rewrite (rev_join (py " ") (w :: ws)).
    change (rev (py " ")) with (py " ").
    rewrite Heq. reflexivity. }
  rewrite Hjoin. apply rstrip_clean_last. exact Hc.
Qed.

Lemma strip_join_words (ws : list pystr) :
  Forall word ws -> Py.strip (Py.join (py " ") ws) = Py.join (py " ") ws.
Proof.
  intros Hws. unfold Py.strip.
  rewrite (lstrip_join_words _ Hws). apply rstrip_join_words. exact Hws.
Qed.

Lemma collapsed_word_app (w t : pystr) :
  Forall (fun c => Py.isspace c = false) w ->
  runs_collapsed t = true -> runs_collapsed (w ++ t) = true.
Proof.
  intros Hw Ht.
  induction Hw as [ | c w Hc Hw IH ]; [ exact Ht | ].
  change ((c :: w) ++ t) with (c :: (w ++ t)).
  simpl. rewrite Hc, IH. destruct (w ++ t); reflexivity.
Qed.

Lemma collapsed_join_words (ws : list pystr) :
  Forall word ws -> runs_collapsed (Py.join (py " ") ws) = true.
Proof.
  induction ws as [ | w ws IH ]; intros Hws; [ reflexivity | ].
  inversion Hws as [ | w0 ws0 [Hwne Hw] Hrest ]; subst.
  destruct ws as [ | w' ws ].
  - simpl. rewrite <- (app_nil_r w). apply collapsed_word_app; [ exact Hw | reflexivity ].
  - change (Py.join (py " ") (w :: w' :: ws))
      with (w ++ py " " ++ Py.join (py " ") (w' :: ws)).
    apply collapsed_word_app; [ exact Hw | ].
    destruct (join_words_head _ Hrest) as [c [t [Heq Hc]]]; [ discriminate | ].
    specialize (IH Hrest). rewrite Heq in *.
    change (py " " ++ c :: t) with (chr " " :: c :: t).
    change (runs_collapsed (chr " " :: c :: t))
      with (negb (Py.isspace (chr " ") && Py.isspace c) && runs_collapsed (c :: t)).
    rewrite Hc, IH. reflexivity.
Qed.

(** The text [' '.join(words)] of clean words is sanitized. *)
Lemma sanitized_join_words (ws : list pystr) :
  Forall word ws ->
  (forall w, In w ws -> ~ In (chr "|") w) ->
  sanitized (Py.join (py " ") ws).
Proof.
  intros Hws Hpipe.
  assert (Hspace : forall c, In c (Py.join (py " ") ws) ->
                             Py.isspace c = true -> c = chr " ").
  { intros c Hin Hc. apply in_join in Hin.
    destruct Hin as [[Heq | []] | [w [Hw Hcw]]]; [ symmetry; exact Heq | ].
    rewrite Forall_forall in Hws. destruct (Hws w Hw) as [_ Hall].
    rewrite Forall_forall in Hall. rewrite (Hall c Hcw) in Hc. discriminate Hc. }
  repeat split.
  - intros Hin. apply Hspace in Hin; [ discriminate Hin | reflexivity ].
  - intros Hin. apply Hspace in Hin; [ discriminate Hin | reflexivity ].
  - intros Hin. apply in_join in Hin.
    destruct Hin as [[Heq | []] | [w [Hw Hcw]]]; [ discriminate Heq | ].
    exact (Hpipe w Hw Hcw).
  - exact Hspace.
  - apply collapsed_join_words. exact Hws.
  - apply strip_join_words. exact Hws.
Qed.

Lemma replace_pipe_word (w : pystr) :
  word w -> word (Py.replace (chr "|") (chr "-") w).
Proof.
  intros [Hne Hall]. split.
  - intros Hnil. apply map_eq_nil in Hnil. contradiction.
  - unfold Py.replace. apply Forall_map. revert Hall. apply Forall_impl.
    intros c Hc. destruct (N.eqb_spec c (chr "|")); [ reflexivity | exact Hc ].
Qed.

Lemma replace_pipe_free (s : pystr) :
  ~ In (chr "|") (Py.replace (chr "|") (chr "-") s).
Proof.
  unfold Py.replace. intros Hin. apply in_map_iff in Hin.
  destruct Hin as [c [Hc _]].
  destruct (c =? chr "|")%N eqn:E; [ discriminate Hc | ].
  rewrite Hc in E. discriminate E.
Qed.

(** ** The sanitizer and the flattening engine *)

Section Flatten.

Variable isprintable : char -> bool.

Lemma flatten_scalar (v : json) (parse_dates : bool) :
  scalar v = true ->
  flatten_segment_to_fields isprintable v parse_dates = [safe_value isprintable v].
Proof. destruct v; simpl; intros H; try reflexivity; discriminate H. Qed.

Lemma flatten_list (items : list json) (parse_dates : bool) :
  flatten_segment_to_fields isprintable (JList items) parse_dates
  = concat (map (fun item => flatten_segment_to_fields isprintable item parse_dates) items).
Proof.
  simpl.
  induction items as [ | item items IH ]; simpl; [ reflexivity | ].
  rewrite IH. destruct item; reflexivity.
Qed.

Lemma flatten_dict (entries : list (pystr * json)) (parse_dates : bool) :
  flatten_segment_to_fields isprintable (JDict entries) parse_dates
  = concat (map (fun kv => flatten_segment_to_fields isprintable (snd kv) parse_dates) entries).
Proof.
  simpl.
  induction entries as [ | [key v] entries IH ]; simpl; [ reflexivity | ].
  rewrite IH. destruct v; reflexivity.
Qed.

(** C7.  Flattening is a depth-first, pre-order traversal in the order of
    the input: the fields of a mapping are the fields of its values one
    after the other in entry order, the fields of a list are those of its
    items in item order, and a scalar is its one sanitized text.  So
    [{"a": 1, "b": {"c": 2, "d": 3}}] flattens to ["1", "2", "3"] and
    [[1, [2, 3], 4]] to ["1", "2", "3", "4"]. *)
Theorem flatten_preorder :
  (forall v parse_dates,
     flatten_segment_to_fields isprintable v parse_dates
     = match v with
       | JDict entries =>
           concat (map (fun kv => flatten_segment_to_fields isprintable (snd kv) parse_dates)
                     entries)
       | JList items =>
           concat (map (fun item => flatten_segment_to_fields isprintable item parse_dates)
                     items)
       | _ => [safe_value isprintable v]
       end)
  /\ flatten_segment_to_fields isprintable
       (JDict [(py "a", JInt 1);
               (py "b", JDict [(py "c", JInt 2); (py "d", JInt 3)])]) false
     = [py "1"; py "2"; py "3"]
  /\ flatten_segment_to_fields isprintable
       (JList [JInt 1; JList [JInt 2; JInt 3]; JInt 4]) false
     = [py "1"; py "2"; py "3"; py "4"].
Proof.
  split; [ | split; reflexivity ].
  intros v parse_dates.
  destruct v; try reflexivity.
  - apply flatten_list.
  - apply flatten_dict.
Qed.

(** C8.  [None], the empty string and the string ["null"] are all
    sanitized to the empty string. *)
Theorem safe_value_null_like :
  safe_value isprintable JNull = py ""
  /\ safe_value isprintable (JStr (py "")) = py ""
  /\ safe_value isprintable (JStr (py "null")) = py "".
Proof. repeat split; reflexivity. Qed.

Lemma sanitized_empty : sanitized (py "").
Proof.
  unfold sanitized. simpl. intuition.
Qed.

Lemma safe_value_sanitized (val : json) : sanitized (safe_value isprintable val).
Proof.
  unfold safe_value.
  destruct (is_none val || Py.eq_str val (py "") || Py.eq_str val (py "null")).
  - exact sanitized_empty.
  - cbv zeta. rewrite replace_join.
    change (Py.replace (chr "|") (chr "-") (py " ")) with (py " ").
    apply sanitized_join_words.
    + apply Forall_map. eapply Forall_impl; [ | apply split_words ].
      exact replace_pipe_word.
    + intros w Hw. apply in_map_iff in Hw. destruct Hw as [w0 [<- _]].
      apply replace_pipe_free.
Qed.

Lemma flatten_sanitized (segment_data : json) (parse_dates : bool) :
  Forall sanitized (flatten_segment_to_fields isprintable segment_data parse_dates).
Proof.
  induction segment_data as [ | b | z | text | s | items IH | entries IH ] using json_ind;
    try (constructor; [ apply safe_value_sanitized | constructor ]).
  - rewrite flatten_list. apply Forall_concat. apply Forall_map. exact IH.
  - rewrite flatten_dict. apply Forall_concat. apply Forall_map. exact IH.
Qed.

(** C10.  Whatever the input, the text the sanitizer returns has no
    newline, no carriage return and no pipe, its only whitespace is the
    plain space, never two in a row, and it is trimmed; every field the
    flattening engine appends has the same shape. *)
Theorem sanitizer_output_shape :
  (forall val, sanitized (safe_value isprintable val))
  /\ (forall segment_data parse_dates,
        Forall sanitized
          (flatten_segment_to_fields isprintable segment_data parse_dates)).
Proof.
  split.
  - exact safe_value_sanitized.
  - exact flatten_sanitized.
Qed.

End Flatten.

(** ** The segment row builders and the record expander *)

Section Rows.

Variable isprintable : char -> bool.

Lemma pad_length (width : nat) (row : list json) :
  length (pad width row) = Nat.max width (length row).
Proof. unfold pad. rewrite length_app, repeat_length. lia. Qed.

Lemma OK_inj {A : Type} (a b : A) : OK a = OK b -> a = b.
Proof.
  intros H.
  exact (f_equal (fun r => match r with OK x => x | Raise _ => a end) H).
Qed.

(** The row a builder returns, spelled out. *)
Lemma segment_row_inv (code : pystr) (default unique_id record garbage : json)
  (row : list json) :
  segment_row isprintable code default unique_id record garbage = OK row ->
  exists fields residual_value,
    row = firstn 59 ((pad 52 ([unique_id; JStr code] ++ map JStr fields)
                      ++ [JStr residual_value])
                     ++ repeat (JStr (py "")) 6).
Proof.
  unfold segment_row, bind.
  destruct (Py.get record code default) as [segment | e]; [ | discriminate ].
  cbv zeta.
  assert (Hfields : exists fields,
             (if Py.truthy segment
              then [unique_id; JStr code]
                   ++ map JStr (flatten_segment_to_fields isprintable segment false)
              else [unique_id; JStr code])
             = [unique_id; JStr code] ++ map JStr fields).
  { destruct (Py.truthy segment).
    - eexists; reflexivity.
    - exists []. reflexivity. }
  destruct Hfields as [fields ->].
  destruct (Py.truthy garbage);
    [ destruct (Py.get garbage code JNull) as [g | e]; [ | discriminate ] | ];
    intros H; apply OK_inj in H; subst row; eexists; eexists; reflexivity.
Qed.

Lemma segment_row_length (code : pystr) (default unique_id record garbage : json)
  (row : list json) :
  segment_row isprintable code default unique_id record garbage = OK row ->
  length row = 59.
Proof.
  intros H. destruct (segment_row_inv _ _ _ _ _ _ H) as [fields [residual ->]].
  rewrite length_firstn, !length_app, pad_length, repeat_length.
  simpl length. lia.
Qed.

Lemma segment_row_head (code : pystr) (default unique_id record garbage : json)
  (row : list json) :
  segment_row isprintable code default unique_id record garbage = OK row ->
  exists rest, row = unique_id :: JStr code :: rest.
Proof.
  intros H. destruct (segment_row_inv _ _ _ _ _ _ H) as [fields [residual ->]].
  unfold pad. rewrite <- !app_assoc.
  change ([unique_id; JStr code] ++ ?t) with (unique_id :: JStr code :: t).
  eexists. rewrite (firstn_cons 58), (firstn_cons 57). reflexivity.
Qed.

Lemma segment_row_returns (code : pystr) (default unique_id record garbage : json) :
  mapping record = true -> garbage_ok garbage = true ->
  exists row, segment_row isprintable code default unique_id record garbage = OK row.
Proof.
  intros Hrecord Hgarbage.
  destruct record; try discriminate Hrecord.
  unfold segment_row, bind. simpl Py.get.
  destruct (Py.truthy garbage) eqn:Htruthy.
  - destruct garbage; try discriminate Hgarbage;
      try (unfold garbage_ok in Hgarbage; rewrite Htruthy in Hgarbage;
           discriminate Hgarbage).
    simpl. eexists; reflexivity.
  - eexists; reflexivity.
Qed.

Lemma segment_row_raises (code : pystr) (default unique_id record garbage : json) :
  mapping record && garbage_ok garbage = false ->
  segment_row isprintable code default unique_id record garbage = Raise AttributeError.
Proof.
  intros H. unfold segment_row, bind.
  destruct record; try reflexivity.
  simpl in H. simpl Py.get. unfold garbage_ok in H.
  destruct (Py.truthy garbage); [ | discriminate H ].
  destruct garbage; try reflexivity. discriminate H.
Qed.

Lemma in_segment_builders (builder : json -> json -> json -> result (list json)) :
  In builder (segment_builders isprintable) ->
  exists code default, builder = segment_row isprintable code default.
Proof.
  unfold segment_builders. simpl.
  intros [<- | [<- | [<- | [<- | [<- | [<- | [<- | []]]]]]]];
    eexists; eexists; reflexivity.
Qed.

(** C4.  Whatever the shapes of [unique_id], of [record] and its segment
    values and of [garbage_per_segment], a row that one of the seven
    segment row builders produces has exactly 59 cells; and a builder does
    produce a row whenever [record] is a mapping and [garbage_per_segment]
    is a mapping or falsy. *)
Theorem segment_rows_have_59_cells :
  forall builder, In builder (segment_builders isprintable) ->
  forall unique_id record garbage_per_segment,
    (forall row, builder unique_id record garbage_per_segment = OK row ->
                 length row = 59)
    /\ (mapping record = true -> garbage_ok garbage_per_segment = true ->
        exists row, builder unique_id record garbage_per_segment = OK row).
Proof.
  intros builder Hin unique_id record garbage.
  destruct (in_segment_builders _ Hin) as [code [default ->]].
  split.
  - intros row. apply segment_row_length.
  - apply segment_row_returns.
Qed.

(** On a well-shaped envelope the expander returns the seven builders' rows. *)
Lemma expander_unfold :
  forall unique_id record garbage_per_segment,
    mapping record = true -> garbage_ok garbage_per_segment = true ->
    exists pn id pt ec pa tl th,
      generate_pn_segment_row isprintable unique_id record garbage_per_segment = OK pn
      /\ generate_id_segment_row isprintable unique_id record garbage_per_segment = OK id
      /\ generate_pt_segment_row isprintable unique_id record garbage_per_segment = OK pt
      /\ generate_ec_segment_row isprintable unique_id record garbage_per_segment = OK ec
      /\ generate_pa_segment_row isprintable unique_id record garbage_per_segment = OK pa
      /\ generate_tl_segment_row isprintable unique_id record garbage_per_segment = OK tl
      /\ generate_th_segment_row isprintable unique_id record garbage_per_segment = OK th
      /\ generate_all_segment_rows isprintable unique_id record garbage_per_segment
         = OK [pn; id; pt; ec; pa; tl; th].
Proof.
  intros unique_id record garbage Hrecord Hgarbage.
  unfold generate_all_segment_rows.
  unfold generate_pn_segment_row, generate_id_segment_row, generate_pt_segment_row,
    generate_ec_segment_row, generate_pa_segment_row, generate_tl_segment_row,
    generate_th_segment_row.
  destruct (segment_row_returns (py "PN") (JDict []) unique_id _ _ Hrecord Hgarbage) as [pn Hpn].
  destruct (segment_row_returns (py "ID") (JList []) unique_id _ _ Hrecord Hgarbage) as [id Hid].
  destruct (segment_row_returns (py "PT") (JList []) unique_id _ _ Hrecord Hgarbage) as [pt Hpt].
  destruct (segment_row_returns (py "EC") (JDict []) unique_id _ _ Hrecord Hgarbage) as [ec Hec].
  destruct (segment_row_returns (py "PA") (JList []) unique_id _ _ Hrecord Hgarbage) as [pa Hpa].
  destruct (segment_row_returns (py "TL") (JDict []) unique_id _ _ Hrecord Hgarbage) as [tl Htl].
  destruct (segment_row_returns (py "TH") (JList []) unique_id _ _ Hrecord Hgarbage) as [th Hth].
  exists pn, id, pt, ec, pa, tl, th.
  rewrite Hpn, Hid, Hpt, Hec, Hpa, Htl, Hth.
  repeat split; reflexivity.
Qed.

(** The rows of the expander: seven of them, 59 cells each, [unique_id]
    first. *)
Lemma expander_rows :
  forall unique_id record garbage_per_segment,
    mapping record = true -> garbage_ok garbage_per_segment = true ->
    exists rows,
      generate_all_segment_rows isprintable unique_id record garbage_per_segment = OK rows
      /\ length rows = 7
      /\ Forall (fun row => length row = 59
                           /\ exists rest, row = unique_id :: rest) rows.
Proof.
  intros unique_id record garbage Hrecord Hgarbage.
  destruct (expander_unfold unique_id record garbage Hrecord Hgarbage)
    as [pn [id [pt [ec [pa [tl [th [Hpn [Hid [Hpt [Hec [Hpa [Htl [Hth Hall]]]]]]]]]]]]]].
  exists [pn; id; pt; ec; pa; tl; th].
  split; [ exact Hall | split; [ reflexivity | ] ].
  repeat constructor;
    try (eapply segment_row_length; eassumption);
    match goal with
    | H : _ = OK ?row |- exists rest, ?row = _ =>
        destruct (segment_row_head _ _ _ _ _ _ H) as [rest ->]; eexists; reflexivity
    end.
Qed.

(** C5.  For an envelope whose [record] is a mapping and whose
    [garbage_per_segment] is a mapping or falsy, the record expander
    returns exactly seven rows: the rows of the PN, ID, PT, EC, PA, TL and
    TH builders, in this order, each naming its segment in its second
    cell and carrying [unique_id] in its first. *)
Theorem expander_seven_rows_in_order :
  forall unique_id record garbage_per_segment,
    mapping record = true -> garbage_ok garbage_per_segment = true ->
    exists pn id pt ec pa tl th,
      generate_pn_segment_row isprintable unique_id record garbage_per_segment = OK pn
      /\ generate_id_segment_row isprintable unique_id record garbage_per_segment = OK id
      /\ generate_pt_segment_row isprintable unique_id record garbage_per_segment = OK pt
      /\ generate_ec_segment_row isprintable unique_id record garbage_per_segment = OK ec
      /\ generate_pa_segment_row isprintable unique_id record garbage_per_segment = OK pa
      /\ generate_tl_segment_row isprintable unique_id record garbage_per_segment = OK tl
      /\ generate_th_segment_row isprintable unique_id record garbage_per_segment = OK th
      /\ generate_all_segment_rows isprintable unique_id record garbage_per_segment
         = OK [pn; id; pt; ec; pa; tl; th]
      /\ length [pn; id; pt; ec; pa; tl; th] = 7
      /\ map (fun row => nth_error row 1) [pn; id; pt; ec; pa; tl; th]
         = map (fun code => Some (JStr code)) segment_codes
      /\ Forall (fun row => nth_error row 0 = Some unique_id)
           [pn; id; pt; ec; pa; tl; th].
Proof.
  intros unique_id record garbage Hrecord Hgarbage.
  destruct (expander_unfold unique_id record garbage Hrecord Hgarbage)
    as [pn [id [pt [ec [pa [tl [th [Hpn [Hid [Hpt [Hec [Hpa [Htl [Hth Hall]]]]]]]]]]]]]].
  exists pn, id, pt, ec, pa, tl, th.
  repeat (split; [ assumption | ]).
  destruct (segment_row_head _ _ _ _ _ _ Hpn) as [? ->].
  destruct (segment_row_head _ _ _ _ _ _ Hid) as [? ->].
  destruct (segment_row_head _ _ _ _ _ _ Hpt) as [? ->].
  destruct (segment_row_head _ _ _ _ _ _ Hec) as [? ->].
  destruct (segment_row_head _ _ _ _ _ _ Hpa) as [? ->].
  destruct (segment_row_head _ _ _ _ _ _ Htl) as [? ->].
  destruct (segment_row_head _ _ _ _ _ _ Hth) as [? ->].
  repeat split; try reflexivity.
  repeat constructor.
Qed.

(** C1, the code at an overflowing segment.  With a PN segment of 60
    scalars and the residual value ["g1"], the PN builder returns the two
    identity cells followed by the first 57 fields: cell 53, the
    Residual_Value column, holds the 51st field, the six reserved columns
    hold fields 52 to 57, and ["g1"] is not in the row. *)
Theorem pn_row_overflow_drops_residual :
  let record :=
    JDict [(py "PN", JList (map (fun i => JInt (Z.of_nat i)) (seq 1 60)))] in
  let garbage_per_segment := JDict [(py "PN", JStr (py "g1"))] in
  let row :=
    [JStr (py "U1"); JStr (py "PN")]
    ++ map (fun i => JStr (Py.str_int (Z.of_nat i))) (seq 1 57) in
  generate_pn_segment_row isprintable (JStr (py "U1")) record garbage_per_segment
  = OK row
  /\ length row = 59
  /\ nth_error row 52 = Some (JStr (py "51"))
  /\ safe_value isprintable (JStr (py "g1")) = py "g1"
  /\ ~ In (JStr (py "g1")) row.
Proof.
  cbv zeta. repeat split; try reflexivity.
  vm_compute. intuition discriminate.
Qed.

End Rows.

(** ** The cleaning pass and the emission loop *)

Section Pipeline.

Variable isprintable : char -> bool.

Lemma eq_str_empty (cell : json) :
  Py.eq_str cell (py "") = true -> cell = JStr [].
Proof.
  destruct cell as [ | b | z | text | s | items | entries ]; try discriminate.
  destruct s; [ reflexivity | discriminate ].
Qed.

Lemma overlong_not_empty (cell : json) :
  overlong isprintable cell = true -> Py.eq_str cell (py "") = false.
Proof.
  intros H. destruct (Py.eq_str cell (py "")) eqn:E; [ | reflexivity ].
  apply eq_str_empty in E. subst cell. discriminate H.
Qed.

Lemma clean_cells_spec (row : list json) (cleaned_row : list pystr) (problematic : Z) :
  clean_cells isprintable row cleaned_row problematic
  = (OK (cleaned_row ++ map (clean_cell isprintable) row),
     (problematic + Py.len (filter (overlong isprintable) row))%Z).
Proof.
  revert cleaned_row problematic.
  induction row as [ | cell row IH ]; intros cleaned_row problematic.
  - simpl. rewrite app_nil_r. f_equal. unfold Py.len. simpl. lia.
  - cbn [clean_cells map filter]. unfold clean_cell at 1.
    destruct (Py.eq_str cell (py "")) eqn:Hempty.
    + rewrite IH, <- app_assoc.
      apply eq_str_empty in Hempty. subst cell.
      reflexivity.
    + fold (cell_text isprintable cell). fold (overlong isprintable cell).
      destruct (overlong isprintable cell); rewrite IH, <- app_assoc.
      * f_equal. unfold Py.len. simpl length. lia.
      * reflexivity.
Qed.

(** The body of the [try] comes to its end on every row, so the [except]
    clause is never entered. *)
Lemma clean_row_spec (st : locals) (row : list json) :
  clean_row isprintable st row
  = {| csvfile := csvfile st;
       rows_written := rows_written st;
       problematic_rows :=
         (problematic_rows st + Py.len (filter (overlong isprintable) row))%Z;
       all_rows_batch := all_rows_batch st ++ [map (clean_cell isprintable) row] |}.
Proof. unfold clean_row. rewrite clean_cells_spec. reflexivity. Qed.

Lemma fold_clean_row (rows : list (list json)) (st : locals) :
  fold_left (clean_row isprintable) rows st
  = {| csvfile := csvfile st;
       rows_written := rows_written st;
       problematic_rows := (problematic_rows st + cut_cells isprintable rows)%Z;
       all_rows_batch :=
         all_rows_batch st ++ map (map (clean_cell isprintable)) rows |}.
Proof.
  revert st.
  induction rows as [ | row rows IH ]; intros st.
  - destruct st. unfold cut_cells, Py.len. simpl. rewrite app_nil_r. f_equal. lia.
  - simpl fold_left. rewrite IH, clean_row_spec. simpl.
    rewrite <- app_assoc. f_equal.
    unfold cut_cells, Py.len. simpl concat.
    rewrite filter_app, length_app. lia.
Qed.

Lemma encodable_rows_app (a b : list (list pystr)) :
  encodable_rows (a ++ b) = encodable_rows a && encodable_rows b.
Proof. apply forallb_app. Qed.

Lemma encodable_header : encodable_rows [header] = true.
Proof. vm_compute. reflexivity. Qed.

Lemma writerows_inv (file rows file' : list (list pystr)) :
  writerows file rows = OK file' ->
  file' = file ++ rows /\ encodable_rows rows = true.
Proof.
  unfold writerows. destruct (encodable_rows rows); [ | discriminate ].
  intros H. apply OK_inj in H. split; [ symmetry; exact H | reflexivity ].
Qed.

Lemma writerows_ok (file rows : list (list pystr)) :
  encodable_rows rows = true -> writerows file rows = OK (file ++ rows).
Proof. intros H. unfold writerows. rewrite H. reflexivity. Qed.


Lemma process_record_spec (idx : Z) (record_obj : json) (st : locals)
  (rows : list (list json)) :
  envelope_rows isprintable record_obj = OK rows ->
  exists st',
    process_record isprintable idx record_obj st = OK st'
    /\ emitted st' = emitted st ++ map (map (clean_cell isprintable)) rows
    /\ problematic_rows st' = (problematic_rows st + cut_cells isprintable rows)%Z
    /\ (rows_written st' + Py.len (all_rows_batch st')
        = rows_written st + Py.len (all_rows_batch st) + Py.len rows)%Z
    /\ csvfile st' = csvfile st
    /\ rows_written st' = rows_written st
    /\ all_rows_batch st'
       = all_rows_batch st ++ map (map (clean_cell isprintable)) rows.
Proof.
  intros Hrows. unfold process_record, bind. rewrite Hrows.
  rewrite fold_clean_row.
  eexists; (split; [ reflexivity | ]).
  unfold emitted, Py.len; simpl.
  rewrite ?length_app, ?length_map, ?app_assoc.
  repeat split; lia.
Qed.

Lemma process_record_raise (idx : Z) (record_obj : json) (st : locals) (e : exn) :
  envelope_rows isprintable record_obj = Raise e ->
  process_record isprintable idx record_obj st = Raise e.
Proof. intros H. unfold process_record, bind. rewrite H. reflexivity. Qed.

(** The batch test moves rows from the batch to the file, or leaves the
    state as it is. *)
Lemma write_batch_inv (idx : Z) (st st' : locals) :
  write_batch idx st = OK st' ->
  emitted st' = emitted st
  /\ problematic_rows st' = problematic_rows st
  /\ (rows_written st' + Py.len (all_rows_batch st')
      = rows_written st + Py.len (all_rows_batch st))%Z
  /\ (encodable_rows (csvfile st) = true -> encodable_rows (csvfile st') = true)
  /\ (if ((idx + 1) mod batch_size =? 0)%Z
      then all_rows_batch st' = []
           /\ rows_written st' = (rows_written st + Py.len (all_rows_batch st))%Z
      else st' = st).
Proof.
  unfold write_batch, flush, bind.
  destruct ((idx + 1) mod batch_size =? 0)%Z.
  - destruct (writerows (csvfile st) (all_rows_batch st)) as [file | e] eqn:Hwrite;
      [ | discriminate ].
    destruct (writerows_inv _ _ _ Hwrite) as [-> Hbatch].
    intros H. apply OK_inj in H. subst st'.
    unfold emitted, Py.len. simpl. rewrite app_nil_r.
    repeat split; try reflexivity; try lia.
    intros Hfile. rewrite encodable_rows_app, Hfile, Hbatch. reflexivity.
  - intros H. apply OK_inj in H. subst st'.
    repeat split; try reflexivity. intros Hfile. exact Hfile.
Qed.

Lemma write_batch_ok (idx : Z) (st : locals) :
  encodable_rows (all_rows_batch st) = true ->
  exists st', write_batch idx st = OK st'.
Proof.
  intros Hbatch. unfold write_batch, flush, bind.
  destruct ((idx + 1) mod batch_size =? 0)%Z; [ | eexists; reflexivity ].
  rewrite (writerows_ok _ _ Hbatch). eexists. reflexivity.
Qed.


(** What the loop has done when it comes to its end. *)
Lemma process_records_inv (records : list json) :
  forall idx st st',
    process_records isprintable idx records st = OK st' ->
    exists rowss,
      traverse (envelope_rows isprintable) records = OK rowss
      /\ emitted st' = emitted st ++ map (map (clean_cell isprintable)) (concat rowss)
      /\ problematic_rows st'
         = (problematic_rows st + cut_cells isprintable (concat rowss))%Z
      /\ (rows_written st' + Py.len (all_rows_batch st')
          = rows_written st + Py.len (all_rows_batch st) + Py.len (concat rowss))%Z
      /\ (encodable_rows (csvfile st) = true -> encodable_rows (csvfile st') = true).
Proof.
  induction records as [ | record_obj records IH ]; intros idx st st' Hrun.
  - simpl in Hrun. apply OK_inj in Hrun. subst st'.
    exists []. unfold emitted, cut_cells, Py.len. simpl.
    rewrite app_nil_r. repeat split; try lia. intros H. exact H.
  - simpl in Hrun. unfold bind in Hrun.
    destruct (envelope_rows isprintable record_obj) as [rows | e] eqn:Hrows;
      [ | rewrite (process_record_raise idx record_obj st e Hrows) in Hrun;
          discriminate Hrun ].
    destruct (process_record_spec idx record_obj st rows Hrows)
      as [st1 [Hrun1 [Hemit1 [Hprob1 [Hcount1 [Hfile1 _]]]]]].
    rewrite Hrun1 in Hrun.
    destruct (write_batch idx st1) as [st2 | e] eqn:Hwrite; [ | discriminate Hrun ].
    destruct (write_batch_inv idx st1 st2 Hwrite)
      as [Hemit2 [Hprob2 [Hcount2 [Henc2 _]]]].
    destruct (IH (idx + 1)%Z st2 st' Hrun)
      as [rest [Hrest [Hemit3 [Hprob3 [Hcount3 Henc3]]]]].
    exists (rows :: rest). simpl traverse. unfold bind. rewrite Hrows, Hrest.
    split; [ reflexivity | ].
    simpl concat. unfold cut_cells, Py.len in *.
    rewrite Hemit3, Hemit2, Hemit1, Hprob3, Hprob2, Hprob1.
    rewrite map_app, concat_app, filter_app, !length_app, app_assoc.
    repeat split; try lia.
    intros H. apply Henc3, Henc2. rewrite Hfile1. exact H.
Qed.

(** The loop comes to its end when the rows of every envelope are
    generated and every cleaned cell can be encoded. *)
Lemma process_records_ok (records : list json) (rowss : list (list (list json))) :
  traverse (envelope_rows isprintable) records = OK rowss ->
  forall idx st,
    encodable_rows (all_rows_batch st) = true ->
    encodable_rows (map (map (clean_cell isprintable)) (concat rowss)) = true ->
    exists st',
      process_records isprintable idx records st = OK st'
      /\ encodable_rows (all_rows_batch st') = true.
Proof.
  revert rowss.
  induction records as [ | record_obj records IH ];
    intros rowss Htraverse idx st Hbatch Hcells.
  - exists st. split; [ reflexivity | exact Hbatch ].
  - simpl in Htraverse. unfold bind in Htraverse.
    destruct (envelope_rows isprintable record_obj) as [rows | e] eqn:Hrows;
      [ | discriminate ].
    destruct (traverse (envelope_rows isprintable) records) as [rest | e] eqn:Hrest;
      [ | discriminate ].
    apply OK_inj in Htraverse. subst rowss.
    simpl concat in Hcells. rewrite map_app, encodable_rows_app in Hcells.
    apply andb_prop in Hcells. destruct Hcells as [Hhead Htail].
    destruct (process_record_spec idx record_obj st rows Hrows)
      as [st1 [Hrun1 [_ [_ [_ [_ [_ Hbatch1]]]]]]].
    assert (Henc1 : encodable_rows (all_rows_batch st1) = true).
    { rewrite Hbatch1, encodable_rows_app, Hbatch, Hhead. reflexivity. }
    destruct (write_batch_ok idx st1 Henc1) as [st2 Hwrite].
    assert (Henc2 : encodable_rows (all_rows_batch st2) = true).
    { destruct (write_batch_inv idx st1 st2 Hwrite) as [_ [_ [_ [_ Hcase]]]].
      destruct ((idx + 1) mod batch_size =? 0)%Z.
      - destruct Hcase as [-> _]. reflexivity.
      - subst st2. exact Henc1. }
    destruct (IH rest eq_refl (idx + 1)%Z st2 Henc2 Htail) as [st' [Hrun' Henc']].
    exists st'. simpl process_records. unfold bind. rewrite Hrun1, Hwrite.
    split; [ exact Hrun' | exact Henc' ].
Qed.



Lemma write_remaining_inv (st st' : locals) :
  write_remaining st = OK st' ->
  csvfile st' = emitted st
  /\ rows_written st' = (rows_written st + Py.len (all_rows_batch st))%Z
  /\ problematic_rows st' = problematic_rows st
  /\ all_rows_batch st' = all_rows_batch st
  /\ (encodable_rows (csvfile st) = true -> encodable_rows (csvfile st') = true).
Proof.
  unfold write_remaining, emitted, bind.
  destruct (all_rows_batch st) as [ | row batch ] eqn:Hbatch.
  - intros H. apply OK_inj in H. subst st'.
    rewrite app_nil_r, Hbatch. unfold Py.len. simpl.
    repeat split; try reflexivity; try lia. intros H. exact H.
  - destruct (writerows (csvfile st) (row :: batch)) as [file | e] eqn:Hwrite;
      [ | discriminate ].
    destruct (writerows_inv _ _ _ Hwrite) as [-> Henc].
    intros H. apply OK_inj in H. subst st'. simpl.
    repeat split; try reflexivity.
    intros Hfile. rewrite encodable_rows_app, Hfile, Henc. reflexivity.
Qed.

Lemma write_remaining_ok (st : locals) :
  encodable_rows (all_rows_batch st) = true ->
  exists st', write_remaining st = OK st'.
Proof.
  intros Henc. unfold write_remaining, bind.
  destruct (all_rows_batch st) as [ | row batch ]; [ eexists; reflexivity | ].
  rewrite (writerows_ok _ _ Henc). eexists. reflexivity.
Qed.

Lemma iter_len_value (v : json) (items : list json) :
  Py.iter v = OK items -> exists n, Py.len_value v = OK n.
Proof. destruct v; try discriminate; intros _; eexists; reflexivity. Qed.


(** What a run that returns has done: the rows of every envelope were
    generated, and the file holds the header and all of them, cleaned. *)
Lemma run_inv (data : json) (n : Z) (st : locals) :
  generate_csv_from_json isprintable data = OK (n, st) ->
  exists rows,
    generated_rows isprintable data = OK rows
    /\ n = Py.len rows
    /\ csvfile st = header :: map (map (clean_cell isprintable)) rows
    /\ problematic_rows st = cut_cells isprintable rows
    /\ rows_written st = Py.len rows
    /\ encodable_rows (map (map (clean_cell isprintable)) rows) = true.
Proof.
  unfold generated_rows, generate_csv_from_json, bind.
  destruct (Py.get data (py "Records") (JList [])) as [records | e]; [ | discriminate ].
  destruct (Py.len_value records) as [total | e]; [ | discriminate ].
  destruct (Py.iter records) as [envelopes | e]; [ | discriminate ].
  destruct (process_records isprintable 0 envelopes _) as [st1 | e] eqn:Hloop;
    [ | discriminate ].
  destruct (write_remaining st1) as [st2 | e] eqn:Hlast; [ | discriminate ].
  intros H. apply OK_inj in H. injection H as <- <-.
  destruct (process_records_inv envelopes _ _ _ Hloop)
    as [rowss [-> [Hemit [Hprob [Hcount Henc]]]]].
  destruct (write_remaining_inv st1 st2 Hlast)
    as [Hfile [Hwritten [Hprob2 [_ Henc2]]]].
  exists (concat rowss).
  unfold emitted in Hemit. cbn [csvfile all_rows_batch rows_written problematic_rows]
    in Hemit, Hprob, Hcount, Henc.
  rewrite app_nil_r in Hemit.
  assert (Hfile' : csvfile st2
                   = header :: map (map (clean_cell isprintable)) (concat rowss)).
  { rewrite Hfile. exact Hemit. }
  assert (Hwritten' : rows_written st2 = Py.len (concat rowss)).
  { rewrite Hwritten. change (Py.len (@nil (list pystr))) with 0%Z in Hcount. lia. }
  split; [ reflexivity | ].
  split; [ exact Hwritten' | ].
  split; [ exact Hfile' | ].
  split; [ rewrite Hprob2, Hprob; lia | ].
  split; [ exact Hwritten' | ].
  specialize (Henc2 (Henc encodable_header)).
  rewrite Hfile' in Henc2.
  change (header :: map (map (clean_cell isprintable)) (concat rowss))
    with ([header] ++ map (map (clean_cell isprintable)) (concat rowss)) in Henc2.
  rewrite encodable_rows_app, encodable_header in Henc2. exact Henc2.
Qed.

(** A run whose rows are all generated, and all of whose cleaned cells can
    be encoded, returns. *)
Lemma run_ok (data : json) (rows : list (list json)) :
  generated_rows isprintable data = OK rows ->
  encodable_rows (map (map (clean_cell isprintable)) rows) = true ->
  exists st,
    generate_csv_from_json isprintable data = OK (Py.len rows, st)
    /\ csvfile st = header :: map (map (clean_cell isprintable)) rows
    /\ problematic_rows st = cut_cells isprintable rows
    /\ rows_written st = Py.len rows.
Proof.
  intros Hrows Hcells.
  assert (Hrun : exists n st, generate_csv_from_json isprintable data = OK (n, st)).
  { revert Hrows. unfold generated_rows, generate_csv_from_json, bind.
    destruct (Py.get data (py "Records") (JList [])) as [records | e];
      [ | discriminate ].
    destruct (Py.iter records) as [envelopes | e] eqn:Hiter; [ | discriminate ].
    destruct (iter_len_value records envelopes Hiter) as [total ->].
    destruct (traverse (envelope_rows isprintable) envelopes) as [rowss | e] eqn:Hrowss;
      [ | discriminate ].
    intros H. apply OK_inj in H. subst rows.
    destruct (process_records_ok envelopes rowss Hrowss 0%Z
                {| csvfile := [header]; rows_written := 0; problematic_rows := 0;
                   all_rows_batch := [] |} eq_refl Hcells)
      as [st1 [-> Henc1]].
    destruct (write_remaining_ok st1 Henc1) as [st2 ->].
    eexists. eexists. reflexivity. }
  destruct Hrun as [n [st Hrun]].
  destruct (run_inv data n st Hrun)
    as [rows' [Hrows' [Hn [Hfile [Hprob [Hwritten _]]]]]].
  rewrite Hrows in Hrows'. apply OK_inj in Hrows'. subst rows' n.
  exists st. repeat split; assumption.
Qed.



Lemma envelope_rows_well_shaped (record_obj : json) :
  well_shaped record_obj = true ->
  exists entries rows,
    record_obj = JDict entries
    /\ envelope_rows isprintable record_obj = OK rows
    /\ length rows = 7
    /\ Forall (fun row =>
                 length row = 59
                 /\ exists rest, row = field (py "unique_id") JNull entries :: rest)
         rows.
Proof.
  destruct record_obj as [ | b | z | text | s | items | entries ]; try discriminate.
  simpl. intros H. apply andb_prop in H. destruct H as [Hrecord Hgarbage].
  destruct (expander_rows isprintable (field (py "unique_id") JNull entries)
              _ _ Hrecord Hgarbage) as [rows [Hrows Hshape]].
  exists entries, rows. split; [ reflexivity | ]. split; [ exact Hrows | exact Hshape ].
Qed.

Lemma envelope_rows_malformed (record_obj : json) :
  well_shaped record_obj = false ->
  envelope_rows isprintable record_obj = Raise AttributeError.
Proof.
  destruct record_obj as [ | b | z | text | s | items | entries ]; try reflexivity.
  simpl. intros H.
  change (envelope_rows isprintable (JDict entries))
    with (generate_all_segment_rows isprintable
            (field (py "unique_id") JNull entries)
            (field (py "record") (JDict []) entries)
            (field (py "garbage_per_segment") (JDict []) entries)).
  unfold generate_all_segment_rows, generate_pn_segment_row.
  rewrite (segment_row_raises isprintable _ _ _ _ _ H). reflexivity.
Qed.




(** C3, as the code has it.  The value [generate_csv_from_json] returns is
    one integer, its counter of rows written: the number of data rows in
    the file, which starts with the header.  The count of flagged cells is
    not part of it. *)
Theorem returns_rows_written_only :
  forall data n st,
    generate_csv_from_json isprintable data = OK (n, st) ->
    n = rows_written st
    /\ n = (Py.len (csvfile st) - 1)%Z
    /\ hd_error (csvfile st) = Some header.
Proof.
  intros data n st Hrun.
  destruct (run_inv data n st Hrun)
    as [rows [_ [Hn [Hfile [_ [Hwritten _]]]]]].
  rewrite Hfile, Hwritten, Hn. unfold Py.len. simpl length.
  rewrite length_map. repeat split; try reflexivity. lia.
Qed.

(** C6.  When a run returns, the file holds the header and then, row for
    row and cell for cell, the cleaned form of every generated row, and the
    issue counter is the number of cells that were cut.  In particular a
    cell whose text [str(cell).strip()] is longer than 8000 characters is
    written as the first 8000 characters of that text, in its row, which
    keeps all its cells, and the counter is at least 1. *)
Theorem overlong_cell_truncated_and_counted :
  forall data n st,
    generate_csv_from_json isprintable data = OK (n, st) ->
    exists rows,
      generated_rows isprintable data = OK rows
      /\ csvfile st = header :: map (map (clean_cell isprintable)) rows
      /\ problematic_rows st = cut_cells isprintable rows
      /\ forall i j row cell,
           nth_error rows i = Some row ->
           nth_error row j = Some cell ->
           (Py.len (cell_text isprintable cell) > 8000)%Z ->
           exists cleaned,
             nth_error (csvfile st) (S i) = Some cleaned
             /\ length cleaned = length row
             /\ nth_error cleaned j
                = Some (firstn (Z.to_nat 8000) (cell_text isprintable cell))
             /\ Py.len (firstn (Z.to_nat 8000) (cell_text isprintable cell)) = 8000%Z
             /\ (problematic_rows st >= 1)%Z.
Proof.
  intros data n st Hrun.
  destruct (run_inv data n st Hrun)
    as [rows [Hrows [_ [Hfile [Hprob _]]]]].
  exists rows. repeat (split; [ assumption | ]).
  intros i j row cell Hrow Hcell Hlong.
  assert (Hover : overlong isprintable cell = true).
  { unfold overlong. apply Z.gtb_lt. lia. }
  exists (map (clean_cell isprintable) row).
  rewrite Hfile, Hprob. simpl nth_error.
  split; [ apply map_nth_error; exact Hrow | ].
  split; [ apply length_map | ].
  split.
  { rewrite (map_nth_error _ _ _ Hcell). unfold clean_cell.
    rewrite (overlong_not_empty cell Hover), Hover. reflexivity. }
  split.
  { unfold Py.len in *. rewrite length_firstn. lia. }
  unfold cut_cells, Py.len.
  assert (Hin : In cell (filter (overlong isprintable) (concat rows))).
  { apply filter_In. split; [ | exact Hover ].
    apply in_concat. exists row.
    split; eapply nth_error_In; eassumption. }
  destruct (filter (overlong isprintable) (concat rows)); [ destruct Hin | ].
  simpl length. lia.
Qed.

(** C9.  For a well-shaped envelope without the key [unique_id], one turn
    of the loop, up to the batch test, adds seven rows to the output, and
    the first cell of each is the text ["None"]. *)
Theorem missing_unique_id_is_None :
  forall idx entries st,
    Py.lookup (py "unique_id") entries = None ->
    well_shaped (JDict entries) = true ->
    exists rows st',
      process_record isprintable idx (JDict entries) st = OK st'
      /\ emitted st' = emitted st ++ rows
      /\ length rows = 7
      /\ Forall (fun row => nth_error row 0 = Some (py "None")) rows.
Proof.
  intros idx entries st Hlookup Hshape.
  destruct (envelope_rows_well_shaped (JDict entries) Hshape)
    as [entries' [rows [Heq [Hrows [Hseven Hcells]]]]].
  injection Heq as <-.
  destruct (process_record_spec idx (JDict entries) st rows Hrows)
    as [st' [Hrun [Hemit _]]].
  exists (map (map (clean_cell isprintable)) rows), st'.
  split; [ exact Hrun | ]. split; [ exact Hemit | ].
  split; [ rewrite length_map; exact Hseven | ].
  apply Forall_map. revert Hcells. apply Forall_impl.
  intros row [_ [rest ->]].
  unfold field. rewrite Hlookup. reflexivity.
Qed.

End Pipeline.

(** ** The theorems at the example documents *)

(** The end-to-end example of the specification: the PN row of [envelope_U1]. *)
Example pn_row_of_envelope_U1 :
  option_map (map (clean_cell example_table))
    (match envelope_rows example_table envelope_U1 with
     | OK rows => nth_error rows 0
     | Raise _ => None
     end)
  = Some ([py "U1"; py "PN"; py "Jo-hn"] ++ repeat (py "") 49
          ++ [py "g1"] ++ repeat (py "") 6).
Proof. vm_compute. reflexivity. Qed.

(** The sanitizer examples of the specification. *)
Example safe_value_newlines :
  safe_value example_table
    (JStr (py "a" ++ [chr "010"] ++ py "b" ++ [chr "013"; chr "010"] ++ py "c"))
  = py "a b c".
Proof. vm_compute. reflexivity. Qed.

Example safe_value_pipes :
  safe_value example_table (JStr (py "x|y||z")) = py "x-y--z".
Proof. vm_compute. reflexivity. Qed.

Lemma run_of_envelope_U1 :
  exists st,
    generate_csv_from_json example_table (document [envelope_U1]) = OK (7%Z, st)
    /\ problematic_rows st = 0%Z.
Proof. vm_compute. eexists. split; reflexivity. Qed.

Lemma run_of_envelope_long :
  exists st,
    generate_csv_from_json example_table (document [envelope_long]) = OK (7%Z, st)
    /\ problematic_rows st = 7%Z.
Proof. vm_compute. eexists. split; reflexivity. Qed.

(** At return the batch list still holds the rows of the last write. *)
Example run_keeps_last_batch :
  exists st,
    generate_csv_from_json example_table (document [envelope_U1]) = OK (7%Z, st)
    /\ Py.len (all_rows_batch st) = 7%Z
    /\ Py.len (csvfile st) = 8%Z.
Proof. vm_compute. eexists. repeat split; reflexivity. Qed.

(** A well-shaped document one cell of which cannot be encoded: the write
    after the loop fails. *)
Example run_of_envelope_surrogate :
  well_shaped envelope_surrogate = true
  /\ (exists st,
        process_records example_table 0 [envelope_surrogate] initial_locals = OK st)
  /\ generate_csv_from_json example_table (document [envelope_surrogate])
     = Raise UnicodeEncodeError.
Proof.
  split; [ reflexivity | ]. split; [ vm_compute; eexists; reflexivity | ].
  vm_compute. reflexivity.
Qed.

Lemma rows_of_envelope_long :
  exists row rows,
    generated_rows example_table (document [envelope_long])
    = OK ((JStr (repeat (chr "x") (Z.to_nat 9000)) :: row) :: rows).
Proof. vm_compute. eexists. eexists. reflexivity. Qed.

Lemma text_of_long_cell :
  (Py.len (cell_text example_table (JStr (repeat (chr "x") (Z.to_nat 9000)))) > 8000)%Z
  /\ firstn (Z.to_nat 8000)
       (cell_text example_table (JStr (repeat (chr "x") (Z.to_nat 9000))))
     = repeat (chr "x") (Z.to_nat 8000).
Proof. vm_compute. split; reflexivity. Qed.

(** The PN builder on the end-to-end example returns a row, of 59 cells. *)
Lemma segment_rows_have_59_cells_witness :
  exists row,
    generate_pn_segment_row example_table (JStr (py "U1"))
      (JDict [(py "PN", JDict [(py "name", JStr (py "Jo|hn"))])])
      (JDict [(py "PN", JStr (py "g1"))]) = OK row
    /\ length row = 59.
Proof.
  pose proof (segment_rows_have_59_cells example_table
                (generate_pn_segment_row example_table) (or_introl eq_refl)
                (JStr (py "U1"))
                (JDict [(py "PN", JDict [(py "name", JStr (py "Jo|hn"))])])
                (JDict [(py "PN", JStr (py "g1"))])) as [Hlength Hreturns].
  destruct (Hreturns eq_refl eq_refl) as [row Hrow].
  exists row. split; [ exact Hrow | exact (Hlength row Hrow) ].
Defined.

(** The expander on the end-to-end example: seven rows, named in order. *)
Lemma expander_seven_rows_in_order_witness :
  exists rows,
    generate_all_segment_rows example_table (JStr (py "U1"))
      (JDict [(py "PN", JDict [(py "name", JStr (py "Jo|hn"))])])
      (JDict [(py "PN", JStr (py "g1"))]) = OK rows
    /\ length rows = 7
    /\ map (fun row => nth_error row 1) rows
       = map (fun code => Some (JStr code)) segment_codes.
Proof.
  destruct (expander_seven_rows_in_order example_table (JStr (py "U1"))
              (JDict [(py "PN", JDict [(py "name", JStr (py "Jo|hn"))])])
              (JDict [(py "PN", JStr (py "g1"))]) eq_refl eq_refl)
    as [pn [id [pt [ec [pa [tl [th H]]]]]]].
  exists [pn; id; pt; ec; pa; tl; th].
  destruct H as [_ [_ [_ [_ [_ [_ [_ [Hall [Hseven [Hcodes _]]]]]]]]]].
  split; [ exact Hall | split; [ exact Hseven | exact Hcodes ] ].
Defined.




(** Two runs that return the same value, 7, while one flagged no cell and
    the other flagged seven: the returned value does not carry the count of
    flagged cells. *)
Lemma issue_count_not_returned :
  exists st1 st2,
    generate_csv_from_json example_table (document [envelope_U1]) = OK (7%Z, st1)
    /\ generate_csv_from_json example_table (document [envelope_long]) = OK (7%Z, st2)
    /\ problematic_rows st1 = 0%Z
    /\ problematic_rows st2 = 7%Z.
Proof.
  destruct run_of_envelope_U1 as [st1 [Hrun1 Hcount1]].
  destruct run_of_envelope_long as [st2 [Hrun2 Hcount2]].
  exists st1, st2. repeat split; assumption.
Qed.

(** The run over [envelope_U1] returns 7, the number of data rows written. *)
Lemma returns_rows_written_only_witness :
  exists st,
    generate_csv_from_json example_table (document [envelope_U1]) = OK (7%Z, st)
    /\ 7%Z = rows_written st
    /\ 7%Z = (Py.len (csvfile st) - 1)%Z
    /\ hd_error (csvfile st) = Some header.
Proof.
  destruct run_of_envelope_U1 as [st [Hrun _]].
  exists st. split; [ exact Hrun | ].
  exact (returns_rows_written_only example_table (document [envelope_U1]) 7%Z st Hrun).
Defined.

(** The run over [envelope_long]: the first cell of the first data row is
    the 9000-character identifier cut to 8000 characters, and the counter
    is at least 1. *)
Lemma overlong_cell_witness :
  exists st cleaned,
    generate_csv_from_json example_table (document [envelope_long]) = OK (7%Z, st)
    /\ nth_error (csvfile st) 1 = Some cleaned
    /\ nth_error cleaned 0 = Some (repeat (chr "x") (Z.to_nat 8000))
    /\ (problematic_rows st >= 1)%Z.
Proof.
  destruct run_of_envelope_long as [st [Hrun _]].
  destruct rows_of_envelope_long as [row [rest Hgenerated]].
  destruct text_of_long_cell as [Hlong Hcut].
  destruct (overlong_cell_truncated_and_counted example_table
              (document [envelope_long]) 7%Z st Hrun)
    as [rows [Hrows [_ [_ Hcells]]]].
  rewrite Hgenerated in Hrows. apply OK_inj in Hrows. subst rows.
  destruct (Hcells 0%nat 0%nat _ _ eq_refl eq_refl Hlong)
    as [cleaned [Hrow [_ [Hcell [_ Hcount]]]]].
  exists st, cleaned.
  split; [ exact Hrun | ]. split; [ exact Hrow | ]. split; [ | exact Hcount ].
  rewrite Hcell, Hcut. reflexivity.
Defined.

(** One loop turn, up to the batch test, on [envelope_anonymous] from the
    initial state. *)
Lemma missing_unique_id_witness :
  exists rows st',
    process_record example_table 0 (JDict envelope_anonymous) initial_locals = OK st'
    /\ emitted st' = emitted initial_locals ++ rows
    /\ length rows = 7
    /\ Forall (fun row => nth_error row 0 = Some (py "None")) rows.
Proof.
  exact (missing_unique_id_is_None example_table 0 envelope_anonymous
           initial_locals eq_refl eq_refl).
Defined.

(** ** Further properties of the flattening engine *)

Section FlattenMore.

Variable isprintable : char -> bool.

Lemma flatten_parse_dates (segment_data : json) (a b : bool) :
  flatten_segment_to_fields isprintable segment_data a
  = flatten_segment_to_fields isprintable segment_data b.
Proof.
  induction segment_data as [ | x | z | text | s | items IH | entries IH ] using json_ind;
    try reflexivity.
  - rewrite !flatten_list. f_equal.
    induction IH as [ | item items Hitem _ IHitems ]; [ reflexivity | ].
    simpl. rewrite Hitem, IHitems. reflexivity.
  - rewrite !flatten_dict. f_equal.
    induction IH as [ | kv entries Hkv _ IHentries ]; [ reflexivity | ].
    simpl. rewrite Hkv, IHentries. reflexivity.
Qed.

(** X1.  The [parse_dates] argument of the flattening engine has no
    effect: with it set or not, the same fields come out, so no field is
    ever parsed as a date. *)
Theorem flatten_ignores_parse_dates :
  forall segment_data,
    flatten_segment_to_fields isprintable segment_data true
    = flatten_segment_to_fields isprintable segment_data false.
Proof. intros segment_data. apply flatten_parse_dates. Qed.

(** X2.  The keys of a mapping leave no trace in the fields: a mapping
    flattens to the same fields as the list of its values, whatever the
    keys are. *)
Theorem flatten_drops_keys :
  forall entries parse_dates,
    flatten_segment_to_fields isprintable (JDict entries) parse_dates
    = flatten_segment_to_fields isprintable (JList (map snd entries)) parse_dates.
Proof.
  intros entries parse_dates.
  rewrite flatten_dict, flatten_list, map_map. reflexivity.
Qed.

(** X3.  Nesting of lists leaves no trace either: the fields of a list
    are the fields of its parts one after the other, and a list nested in
    a list flattens as if its items were written in its place. *)
Theorem flatten_splices_lists :
  forall front inner back parse_dates,
    flatten_segment_to_fields isprintable (JList (front ++ back)) parse_dates
    = flatten_segment_to_fields isprintable (JList front) parse_dates
      ++ flatten_segment_to_fields isprintable (JList back) parse_dates
    /\ flatten_segment_to_fields isprintable
         (JList (front ++ JList inner :: back)) parse_dates
       = flatten_segment_to_fields isprintable
           (JList (front ++ inner ++ back)) parse_dates.
Proof.
  intros front inner back parse_dates.
  rewrite !flatten_list, !map_app, !concat_app. split; [ reflexivity | ].
  cbn [map concat]. rewrite flatten_list. reflexivity.
Qed.

End FlattenMore.

(** ** The compact date parser *)

Section ParseDate.

Variable isprintable : char -> bool.

Lemma slices_of_eight (s : pystr) :
  length s = 8 ->
  exists a b c d e f g h, s = [a; b; c; d; e; f; g; h].
Proof.
  intros H.
  do 8 (destruct s as [ | ? s ]; [ discriminate H | ]).
  destruct s; [ | discriminate H ].
  repeat eexists.
Qed.

(** X4.  On a string, [parse_date_ddmmyyyy] answers with a text exactly
    when the string has 8 characters, whatever they are (digits or not, a
    real date or not).  The answer has 10 characters with a dash in
    fifth and eighth place, and the input is recovered from it by
    [unparse_date]; so distinct inputs give distinct answers. *)
Theorem parse_date_ddmmyyyy_round_trip :
  forall s,
    (length s = 8 ->
     exists out,
       parse_date_ddmmyyyy isprintable (JStr s) = OK (Some out)
       /\ length out = 10
       /\ nth_error out 4 = Some (chr "-") /\ nth_error out 7 = Some (chr "-")
       /\ unparse_date out = s)
    /\ (length s <> 8 -> parse_date_ddmmyyyy isprintable (JStr s) = OK None).
Proof.
  intros s. split.
  - intros Hlen.
    destruct (slices_of_eight s Hlen) as [a [b [c [d [e [f [g [h ->]]]]]]]].
    unfold parse_date_ddmmyyyy. simpl Py.truthy. simpl negb.
    destruct (Py.eq_str (JStr [a; b; c; d; e; f; g; h]) (py "null")) eqn:Hnull.
    + simpl in Hnull. rewrite !andb_false_r in Hnull. discriminate Hnull.
    + simpl. eexists. repeat split.
  - intros Hlen. unfold parse_date_ddmmyyyy.
    destruct (negb (Py.truthy (JStr s)) || Py.eq_str (JStr s) (py "null"));
      [ reflexivity | ].
    unfold bind. simpl Py.len_value. unfold Py.len.
    destruct (Z.eqb_spec (Z.of_nat (length s)) 8) as [Heq | Hne]; [ | reflexivity ].
    exfalso. apply Hlen. lia.
Qed.

(** X5.  [parse_date_ddmmyyyy] raises only on a truthy value without a
    length (a non-zero number, or [true]), and then a [TypeError]; on
    [None], a string, a list, a mapping, zero or [false] it returns. *)
Theorem parse_date_ddmmyyyy_raises :
  forall date_str,
    (Py.truthy date_str && negb (sized date_str) = true ->
     parse_date_ddmmyyyy isprintable date_str = Raise TypeError)
    /\ (Py.truthy date_str && negb (sized date_str) = false ->
        exists answer, parse_date_ddmmyyyy isprintable date_str = OK answer).
Proof.
  intros date_str. unfold parse_date_ddmmyyyy, bind.
  destruct (Py.truthy date_str) eqn:Htruthy;
    destruct (sized date_str) eqn:Hsized; simpl negb; simpl andb; simpl orb;
    split; intros H; try discriminate H.
  - destruct (Py.eq_str date_str (py "null")); [ eexists; reflexivity | ].
    destruct date_str as [ | b | z | text | s | items | entries ];
      try discriminate Hsized; simpl;
      match goal with
      | |- context [negb ?c] => destruct (negb c)
      end; eexists; reflexivity.
  - destruct date_str as [ | b | z | text | s | items | entries ];
      try discriminate Hsized; reflexivity.
  - eexists; reflexivity.
  - eexists; reflexivity.
Qed.

End ParseDate.

(** ** Sanitizing what is already clean *)

Lemma split_from_word (w acc rest : pystr) :
  Forall (fun c => Py.isspace c = false) w ->
  Py.split_from acc (w ++ rest) = Py.split_from (acc ++ w) rest.
Proof.
  intros Hw. revert acc.
  induction Hw as [ | c w Hc Hw IH ]; intros acc.
  - rewrite app_nil_r. reflexivity.
  - simpl. rewrite Hc, IH, <- app_assoc. reflexivity.
Qed.

Lemma split_join_words (ws : list pystr) :
  Forall word ws -> Py.split (Py.join (py " ") ws) = ws.
Proof.
  unfold Py.split.
  induction ws as [ | w ws IH ]; intros Hws; [ reflexivity | ].
  inversion Hws as [ | w0 ws0 [Hne Hw] Hrest ]; subst.
  destruct ws as [ | w' ws ].
  - simpl Py.join. rewrite <- (app_nil_r w) at 1.
    rewrite (split_from_word w [] [] Hw). simpl.
    destruct w; [ contradiction Hne; reflexivity | reflexivity ].
  - change (Py.join (py " ") (w :: w' :: ws))
      with (w ++ py " " ++ Py.join (py " ") (w' :: ws)).
    rewrite (split_from_word w [] _ Hw).
    specialize (IH Hrest).
    set (rest := Py.join (py " ") (w' :: ws)) in *.
    destruct w as [ | c w ]; [ contradiction Hne; reflexivity | ].
    simpl. rewrite IH. reflexivity.
Qed.

Lemma replace_absent (old new : char) (s : pystr) :
  ~ In old s -> Py.replace old new s = s.
Proof.
  unfold Py.replace. induction s as [ | c s IH ]; intros Hin; [ reflexivity | ].
  simpl. rewrite IH by (intros H; apply Hin; right; exact H).
  destruct (N.eqb_spec c old) as [-> | _]; [ | reflexivity ].
  contradiction Hin. left. reflexivity.
Qed.

(** The four steps of the sanitizer leave a text of clean words as it is. *)
Lemma sanitize_clean_text (ws : list pystr) :
  Forall word ws ->
  (forall w, In w ws -> ~ In (chr "|") w) ->
  Py.replace (chr "|") (chr "-")
    (Py.join (py " ")
       (Py.split
          (Py.replace (chr "013") (chr " ")
             (Py.replace (chr "010") (chr " ")
                (Py.strip (Py.join (py " ") ws))))))
  = Py.join (py " ") ws.
Proof.
  intros Hws Hpipe.
  destruct (sanitized_join_words ws Hws Hpipe) as [Hnl [Hcr [Hbar _]]].
  rewrite (strip_join_words ws Hws).
  rewrite (replace_absent _ _ _ Hnl), (replace_absent _ _ _ Hcr).
  rewrite (split_join_words ws Hws).
  apply replace_absent. exact Hbar.
Qed.

Lemma str_eqb_eq (a b : pystr) : str_eqb a b = true <-> a = b.
Proof.
  revert b. induction a as [ | x a IH ]; intros [ | y b ]; simpl;
    try (split; [ discriminate | discriminate ]); [ tauto | ].
  rewrite andb_true_iff, N.eqb_eq, IH.
  split; [ intros [-> ->]; reflexivity | intros H; injection H; tauto ].
Qed.

Lemma plain_digits (d : Decimal.uint) :
  Forall (fun c => Py.isspace c = false /\ c <> chr "|")
    (py (NilEmpty.string_of_uint d)).
Proof.
  induction d; simpl; constructor; try assumption;
    (split; [ reflexivity | discriminate ]).
Qed.

Lemma str_int_word (z : Z) :
  word (Py.str_int z) /\ ~ In (chr "|") (Py.str_int z).
Proof.
  assert (H : Py.str_int z <> []
              /\ Forall (fun c => Py.isspace c = false /\ c <> chr "|")
                   (Py.str_int z)).
  { unfold Py.str_int, NilZero.string_of_int, NilZero.string_of_uint.
    destruct (Z.to_int z) as [d | d]; destruct d;
      (split; [ discriminate | ]);
      try (repeat constructor; try reflexivity; discriminate);
      try (apply (plain_digits (Decimal.D0 d)));
      try (apply (plain_digits (Decimal.D1 d)));
      try (apply (plain_digits (Decimal.D2 d)));
      try (apply (plain_digits (Decimal.D3 d)));
      try (apply (plain_digits (Decimal.D4 d)));
      try (apply (plain_digits (Decimal.D5 d)));
      try (apply (plain_digits (Decimal.D6 d)));
      try (apply (plain_digits (Decimal.D7 d)));
      try (apply (plain_digits (Decimal.D8 d)));
      try (apply (plain_digits (Decimal.D9 d)));
      (constructor; [ split; [ reflexivity | discriminate ] | ]);
      first [ apply (plain_digits (Decimal.D0 d))
            | apply (plain_digits (Decimal.D1 d))
            | apply (plain_digits (Decimal.D2 d))
            | apply (plain_digits (Decimal.D3 d))
            | apply (plain_digits (Decimal.D4 d))
            | apply (plain_digits (Decimal.D5 d))
            | apply (plain_digits (Decimal.D6 d))
            | apply (plain_digits (Decimal.D7 d))
            | apply (plain_digits (Decimal.D8 d))
            | apply (plain_digits (Decimal.D9 d)) ]. }
  destruct H as [Hne Hall]. split.
  - split; [ exact Hne | ].
    revert Hall. apply Forall_impl. intros c [Hc _]. exact Hc.
  - intros Hin. rewrite Forall_forall in Hall.
    destruct (Hall _ Hin) as [_ Hbar]. apply Hbar. reflexivity.
Qed.

Section SanitizeMore.

Variable isprintable : char -> bool.

(** The output of the sanitizer is a text of clean words. *)
Lemma safe_value_words (val : json) :
  exists ws,
    Forall word ws
    /\ (forall w, In w ws -> ~ In (chr "|") w)
    /\ safe_value isprintable val = Py.join (py " ") ws.
Proof.
  unfold safe_value.
  destruct (is_none val || Py.eq_str val (py "") || Py.eq_str val (py "null")).
  - exists []. split; [ constructor | ]. split; [ intros w [] | reflexivity ].
  - cbv zeta. rewrite replace_join.
    change (Py.replace (chr "|") (chr "-") (py " ")) with (py " ").
    eexists. split; [ | split; [ | reflexivity ] ].
    + apply Forall_map. eapply Forall_impl; [ | apply split_words ].
      exact replace_pipe_word.
    + intros w Hw. apply in_map_iff in Hw. destruct Hw as [w0 [<- _]].
      apply replace_pipe_free.
Qed.

(** X6.  Sanitizing twice is sanitizing once, with one exception: a text
    that sanitizes to ["null"] (such as [" null"], which is not the
    literal ["null"] the first test looks for) is blanked by the second
    pass. *)
Theorem safe_value_twice :
  (forall val,
     safe_value isprintable (JStr (safe_value isprintable val))
     = if str_eqb (safe_value isprintable val) (py "null")
       then py ""
       else safe_value isprintable val)
  /\ safe_value isprintable (JStr (py " null")) = py "null"
  /\ safe_value isprintable (JStr (py "null")) = py "".
Proof.
  split; [ | split; reflexivity ].
  intros val.
  destruct (safe_value_words val) as [ws [Hws [Hpipe ->]]].
  set (s := Py.join (py " ") ws).
  unfold safe_value. simpl is_none. unfold Py.eq_str. simpl orb.
  destruct (str_eqb s (py "null")); [ rewrite orb_true_r; reflexivity | ].
  rewrite orb_false_r.
  destruct (str_eqb s (py "")) eqn:Hempty.
  - apply str_eqb_eq in Hempty. symmetry. exact Hempty.
  - cbv zeta. change (Py.str isprintable (JStr s)) with s.
    apply sanitize_clean_text; assumption.
Qed.

(** X7.  A number is never blanked: an integer comes out of the sanitizer
    as its decimal text, so zero gives ["0"], and the booleans give
    ["True"] and ["False"], although zero and [false] are falsy. *)
Theorem safe_value_keeps_numbers :
  (forall z, safe_value isprintable (JInt z) = Py.str_int z
             /\ safe_value isprintable (JInt z) <> py "")
  /\ safe_value isprintable (JInt 0) = py "0"
  /\ safe_value isprintable (JBool true) = py "True"
  /\ safe_value isprintable (JBool false) = py "False".
Proof.
  split; [ | repeat split; reflexivity ].
  intros z.
  destruct (str_int_word z) as [Hword Hpipe].
  assert (Heq : safe_value isprintable (JInt z) = Py.str_int z).
  { unfold safe_value. simpl orb. cbv zeta.
    change (Py.str isprintable (JInt z)) with (Py.join (py " ") [Py.str_int z]).
    apply sanitize_clean_text.
    - constructor; [ exact Hword | constructor ].
    - intros w [<- | []]. exact Hpipe. }
  split; [ exact Heq | ].
  rewrite Heq. destruct Hword as [Hne _]. exact Hne.
Qed.

Lemma clean_cell_trimmed (f : pystr) :
  Py.strip f = f ->
  clean_cell isprintable (JStr f) = firstn (Z.to_nat 8000) f
  /\ overlong isprintable (JStr f) = (Py.len f >? 8000)%Z.
Proof.
  intros Hstrip. unfold clean_cell, overlong, cell_text.
  change (Py.str isprintable (JStr f)) with f. rewrite Hstrip.
  split; [ | reflexivity ].
  destruct f as [ | c f ]; [ reflexivity | ].
  change (Py.eq_str (JStr (c :: f)) (py "")) with false. cbv iota.
  destruct (Py.len (c :: f) >? 8000)%Z eqn:Hlen; [ reflexivity | ].
  symmetry. apply firstn_all2.
  unfold Py.len in Hlen.
  destruct (Z.gtb_spec (Z.of_nat (length (c :: f))) 8000); [ discriminate Hlen | lia ].
Qed.

Lemma clean_cells_trimmed (fields cleaned_row : list pystr) (problematic : Z) :
  Forall (fun f => Py.strip f = f) fields ->
  clean_cells isprintable (map JStr fields) cleaned_row problematic
  = (OK (cleaned_row ++ map (firstn (Z.to_nat 8000)) fields),
     (problematic + Py.len (filter (fun f => (Py.len f >? 8000)%Z) fields))%Z).
Proof.
  intros Hfields. rewrite clean_cells_spec. f_equal.
  - f_equal. f_equal. rewrite map_map.
    induction Hfields as [ | f fields Hf _ IH ]; [ reflexivity | ].
    cbn [map]. rewrite IH.
    destruct (clean_cell_trimmed f Hf) as [-> _]. reflexivity.
  - f_equal.
    assert (Hfilter : filter (overlong isprintable) (map JStr fields)
                      = map JStr (filter (fun f => (Py.len f >? 8000)%Z) fields)).
    { induction Hfields as [ | f fields Hf _ IH ]; [ reflexivity | ].
      cbn [map filter].
      destruct (clean_cell_trimmed f Hf) as [_ ->].
      destruct (Py.len f >? 8000)%Z; cbn [map]; rewrite IH; reflexivity. }
    rewrite Hfilter. unfold Py.len. rewrite length_map. reflexivity.
Qed.

(** X8.  The cleaning pass of the pipeline, run over fields that the
    flattening engine produced, comes to its end, changes none of them
    except to cut the ones longer than 8000 characters, and counts exactly
    those. *)
Theorem cleaning_keeps_fields :
  forall segment_data parse_dates cleaned_row problematic,
    clean_cells isprintable
      (map JStr (flatten_segment_to_fields isprintable segment_data parse_dates))
      cleaned_row problematic
    = (OK (cleaned_row
           ++ map (firstn (Z.to_nat 8000))
                (flatten_segment_to_fields isprintable segment_data parse_dates)),
       (problematic
        + Py.len (filter (fun f => (Py.len f >? 8000)%Z)
                    (flatten_segment_to_fields isprintable segment_data parse_dates)))%Z).
Proof.
  intros segment_data parse_dates cleaned_row problematic.
  apply clean_cells_trimmed.
  eapply Forall_impl; [ | apply flatten_sanitized ].
  intros f Hf. apply Hf.
Qed.

End SanitizeMore.

(** ** The layout of a segment row *)

Section RowsMore.

Variable isprintable : char -> bool.

Lemma in_segment_table (code : pystr)
  (builder : json -> json -> json -> result (list json)) :
  In (code, builder) (segment_table isprintable) ->
  exists default,
    Py.truthy default = false /\ builder = segment_row isprintable code default.
Proof.
  unfold segment_table. simpl.
  intros [H | [H | [H | [H | [H | [H | [H | []]]]]]]];
    injection H as <- <-; eexists; (split; [ | reflexivity ]); reflexivity.
Qed.

(** The row of a builder on a mapping, before the final cut. *)
Lemma segment_row_eq (code : pystr) (default unique_id : json)
  (entries : list (pystr * json)) (garbage : json) :
  garbage_ok garbage = true ->
  segment_row isprintable code default unique_id (JDict entries) garbage
  = OK (firstn 59
          ((pad 52 ([unique_id; JStr code]
                    ++ map JStr (segment_fields isprintable (field code default entries)))
            ++ [JStr (residual_of isprintable code garbage)])
           ++ repeat (JStr (py "")) 6)).
Proof.
  intros Hgarbage. unfold segment_row, bind. simpl Py.get.
  fold (field code default entries). cbv zeta. unfold segment_fields.
  assert (Hrow : (if Py.truthy (field code default entries)
                  then [unique_id; JStr code]
                       ++ map JStr (flatten_segment_to_fields isprintable
                                      (field code default entries) false)
                  else [unique_id; JStr code])
                 = [unique_id; JStr code]
                   ++ map JStr (if Py.truthy (field code default entries)
                                then flatten_segment_to_fields isprintable
                                       (field code default entries) false
                                else [])).
  { destruct (Py.truthy (field code default entries)); reflexivity. }
  rewrite Hrow.
  destruct garbage as [ | b | z | text | s | items | gentries ];
    unfold garbage_ok in Hgarbage; simpl in Hgarbage;
    try rewrite orb_false_r in Hgarbage;
    try (apply negb_true_iff in Hgarbage; simpl Py.truthy; rewrite Hgarbage);
    try reflexivity.
  destruct gentries as [ | entry gentries ]; reflexivity.
Qed.

Lemma segment_fields_default (code : pystr) (default : json)
  (entries : list (pystr * json)) :
  Py.truthy default = false ->
  segment_fields isprintable (field code default entries)
  = segment_fields isprintable (field code JNull entries).
Proof.
  intros Hdefault. unfold field.
  destruct (Py.lookup code entries); [ reflexivity | ].
  unfold segment_fields. rewrite Hdefault. reflexivity.
Qed.

(** X9.  When the segment of a mapping [record] flattens to at most 50
    fields (none at all when the segment is absent or falsy), each of the
    seven builders returns the row of the contract: [unique_id], the
    segment code, the fields, empty cells up to Field50, the sanitized
    residual value (empty when [garbage_per_segment] is falsy or has no
    entry for the segment), and six empty cells. *)
Theorem segment_row_layout :
  forall code builder, In (code, builder) (segment_table isprintable) ->
  forall unique_id entries garbage_per_segment,
    garbage_ok garbage_per_segment = true ->
    length (segment_fields isprintable (field code JNull entries)) <= 50 ->
    builder unique_id (JDict entries) garbage_per_segment
    = OK ([unique_id; JStr code]
          ++ map JStr (segment_fields isprintable (field code JNull entries))
          ++ repeat (JStr (py ""))
               (50 - length (segment_fields isprintable (field code JNull entries)))
          ++ [JStr (residual_of isprintable code garbage_per_segment)]
          ++ repeat (JStr (py "")) 6).
Proof.
  intros code builder Hin unique_id entries garbage Hgarbage Hfields.
  destruct (in_segment_table code builder Hin) as [default [Hdefault ->]].
  rewrite (segment_row_eq code default unique_id entries garbage Hgarbage).
  rewrite (segment_fields_default code default entries Hdefault).
  f_equal. unfold pad.
  set (fields := segment_fields isprintable (field code JNull entries)) in *.
  rewrite length_app, length_map. simpl length.
  replace (52 - (2 + length fields)) with (50 - length fields) by lia.
  rewrite <- !app_assoc.
  apply firstn_all2.
  rewrite !length_app, length_map, !repeat_length. simpl length. lia.
Qed.

(** X10.  A segment missing from [record] gives a row whose fifty field
    cells are all empty: the identity cells, fifty empty cells, the
    residual value and six empty cells. *)
Theorem missing_segment_row :
  forall code builder, In (code, builder) (segment_table isprintable) ->
  forall unique_id entries garbage_per_segment,
    Py.lookup code entries = None ->
    garbage_ok garbage_per_segment = true ->
    builder unique_id (JDict entries) garbage_per_segment
    = OK ([unique_id; JStr code] ++ repeat (JStr (py "")) 50
          ++ [JStr (residual_of isprintable code garbage_per_segment)]
          ++ repeat (JStr (py "")) 6).
Proof.
  intros code builder Hin unique_id entries garbage Hlookup Hgarbage.
  destruct (in_segment_table code builder Hin) as [default [Hdefault ->]].
  rewrite (segment_row_eq code default unique_id entries garbage Hgarbage).
  unfold field, segment_fields. rewrite Hlookup, Hdefault. reflexivity.
Qed.

(** X11.  When the segment flattens to more than 50 fields, the cell of
    the Residual_Value column (cell 53) holds the 51st field; with 57
    fields or more the row is the identity cells and the first 57 fields,
    and does not depend on [garbage_per_segment] at all. *)
Theorem overflowing_segment_row :
  forall code builder, In (code, builder) (segment_table isprintable) ->
  forall unique_id entries garbage_per_segment,
    garbage_ok garbage_per_segment = true ->
    (50 < length (segment_fields isprintable (field code JNull entries)) ->
     exists row,
       builder unique_id (JDict entries) garbage_per_segment = OK row
       /\ nth_error row 52
          = option_map JStr
              (nth_error (segment_fields isprintable (field code JNull entries)) 50))
    /\ (57 <= length (segment_fields isprintable (field code JNull entries)) ->
        builder unique_id (JDict entries) garbage_per_segment
        = OK ([unique_id; JStr code]
              ++ map JStr
                   (firstn 57
                      (segment_fields isprintable (field code JNull entries))))).
Proof.
  intros code builder Hin unique_id entries garbage Hgarbage.
  destruct (in_segment_table code builder Hin) as [default [Hdefault ->]].
  rewrite (segment_row_eq code default unique_id entries garbage Hgarbage).
  rewrite (segment_fields_default code default entries Hdefault).
  set (fields := segment_fields isprintable (field code JNull entries)).
  unfold pad. rewrite length_app, length_map. simpl length.
  split; intros Hlen.
  - eexists. split; [ reflexivity | ].
    replace (52 - (2 + length fields)) with 0 by lia.
    simpl repeat. rewrite app_nil_r, <- !app_assoc.
    change ([unique_id; JStr code] ++ ?t) with (unique_id :: JStr code :: t).
    rewrite nth_error_firstn.
    change (52 <? 59) with true. cbv iota.
    match goal with
    | |- nth_error (unique_id :: JStr code :: ?t) 52 = _ =>
        change (nth_error (unique_id :: JStr code :: t) 52) with (nth_error t 50)
    end.
    rewrite nth_error_app1 by (rewrite length_map; lia).
    apply nth_error_map.
  - f_equal.
    replace (52 - (2 + length fields)) with 0 by lia.
    simpl repeat. rewrite app_nil_r, <- !app_assoc.
    change ([unique_id; JStr code] ++ ?t) with (unique_id :: JStr code :: t).
    rewrite (firstn_cons 58), (firstn_cons 57).
    rewrite firstn_app, firstn_map, length_map.
    replace (57 - length fields) with 0 by lia.
    simpl firstn. rewrite app_nil_r. reflexivity.
Qed.

(** X12.  The record expander fails exactly when [record] is not a
    mapping or [garbage_per_segment] is truthy and not a mapping; the
    failure is an [AttributeError], whatever [unique_id] and the segment
    values are. *)
Theorem expander_failure :
  forall unique_id record garbage_per_segment,
    (mapping record && garbage_ok garbage_per_segment = false <->
     generate_all_segment_rows isprintable unique_id record garbage_per_segment
     = Raise AttributeError)
    /\ (forall e,
          generate_all_segment_rows isprintable unique_id record garbage_per_segment
          = Raise e -> e = AttributeError).
Proof.
  intros unique_id record garbage.
  destruct (mapping record && garbage_ok garbage) eqn:Hshape.
  - apply andb_prop in Hshape. destruct Hshape as [Hrecord Hgarbage].
    destruct (expander_rows isprintable unique_id record garbage Hrecord Hgarbage)
      as [rows [-> _]].
    split; [ split; discriminate | discriminate ].
  - assert (Hraise : generate_all_segment_rows isprintable unique_id record garbage
                     = Raise AttributeError).
    { unfold generate_all_segment_rows, generate_pn_segment_row.
      rewrite (segment_row_raises isprintable _ _ _ _ _ Hshape). reflexivity. }
    rewrite Hraise. split; [ split; reflexivity | ].
    intros e H. injection H as <-. reflexivity.
Qed.

End RowsMore.

(** ** The written file *)

Section FileMore.

Variable isprintable : char -> bool.

Lemma envelope_rows_shape (record_obj : json) (rows : list (list json)) :
  envelope_rows isprintable record_obj = OK rows ->
  length rows = 7 /\ Forall (fun row => length row = 59) rows.
Proof.
  intros Hrows.
  destruct (well_shaped record_obj) eqn:Hshape.
  - destruct (envelope_rows_well_shaped isprintable record_obj Hshape)
      as [entries [rows' [_ [Hrows' [Hseven Hcells]]]]].
    rewrite Hrows' in Hrows. apply OK_inj in Hrows. subst rows'.
    split; [ exact Hseven | ].
    revert Hcells. apply Forall_impl. intros row [H _]. exact H.
  - rewrite (envelope_rows_malformed isprintable record_obj Hshape) in Hrows.
    discriminate Hrows.
Qed.

Lemma traverse_shape (envelopes : list json) (rowss : list (list (list json))) :
  traverse (envelope_rows isprintable) envelopes = OK rowss ->
  Py.len (concat rowss) = (7 * Py.len envelopes)%Z
  /\ Forall (fun row => length row = 59) (concat rowss).
Proof.
  revert rowss.
  induction envelopes as [ | record_obj envelopes IH ]; intros rowss H.
  - apply OK_inj in H. subst rowss. split; [ reflexivity | constructor ].
  - simpl in H. unfold bind in H.
    destruct (envelope_rows isprintable record_obj) as [rows | e] eqn:Hrows;
      [ | discriminate H ].
    destruct (traverse (envelope_rows isprintable) envelopes) as [rest | e];
      [ | discriminate H ].
    apply OK_inj in H. subst rowss.
    destruct (envelope_rows_shape record_obj rows Hrows) as [Hseven Hcells].
    destruct (IH rest eq_refl) as [Hlen Hall].
    simpl concat. split.
    + unfold Py.len in *. rewrite length_app. simpl length. lia.
    + apply Forall_app. split; assumption.
Qed.

Lemma generated_rows_inv (data : json) (rows : list (list json)) :
  generated_rows isprintable data = OK rows ->
  exists records envelopes rowss,
    Py.get data (py "Records") (JList []) = OK records
    /\ Py.iter records = OK envelopes
    /\ traverse (envelope_rows isprintable) envelopes = OK rowss
    /\ rows = concat rowss.
Proof.
  unfold generated_rows, bind.
  destruct (Py.get data (py "Records") (JList [])) as [records | e] eqn:Hget;
    [ | discriminate ].
  destruct (Py.iter records) as [envelopes | e] eqn:Hiter; [ | discriminate ].
  destruct (traverse (envelope_rows isprintable) envelopes) as [rowss | e] eqn:Hrowss;
    [ | discriminate ].
  intros H. apply OK_inj in H.
  exists records, envelopes, rowss.
  split; [ reflexivity | ]. split; [ exact Hiter | ]. split; [ exact Hrowss | ].
  symmetry. exact H.
Qed.

Lemma header_length : length header = 59.
Proof. reflexivity. Qed.

Lemma clean_cell_within_limit (cell : json) :
  within_limit (clean_cell isprintable cell).
Proof.
  unfold within_limit, clean_cell, overlong, Py.len.
  destruct (Py.eq_str cell (py "")); [ simpl; lia | ].
  destruct (Z.gtb_spec (Z.of_nat (length (cell_text isprintable cell))) 8000).
  - rewrite length_firstn. lia.
  - lia.
Qed.

(** X13.  Whenever [generate_csv_from_json] returns, the file is
    rectangular: the header and every data row have 59 cells; and there
    are seven data rows per element of [Records], which is also the
    value returned. *)
Theorem written_file_is_rectangular :
  forall data n st,
    generate_csv_from_json isprintable data = OK (n, st) ->
    Forall (fun row => length row = 59) (csvfile st)
    /\ exists records envelopes,
         Py.get data (py "Records") (JList []) = OK records
         /\ Py.iter records = OK envelopes
         /\ n = (7 * Py.len envelopes)%Z
         /\ Py.len (csvfile st) = (1 + 7 * Py.len envelopes)%Z.
Proof.
  intros data n st Hrun.
  destruct (run_inv isprintable data n st Hrun)
    as [rows [Hrows [Hn [Hfile _]]]].
  destruct (generated_rows_inv data rows Hrows)
    as [records [envelopes [rowss [Hget [Hiter [Htraverse ->]]]]]].
  destruct (traverse_shape envelopes rowss Htraverse) as [Hlen Hcells].
  split.
  - rewrite Hfile. constructor; [ exact header_length | ].
    apply Forall_map. revert Hcells. apply Forall_impl.
    intros row Hrow. rewrite length_map. exact Hrow.
  - exists records, envelopes. repeat split; try assumption.
    + rewrite Hn. exact Hlen.
    + rewrite Hfile. unfold Py.len in *. simpl length. rewrite length_map. lia.
Qed.

(** X14.  Whenever [generate_csv_from_json] returns, no cell of the file
    is longer than 8000 characters. *)
Theorem written_cells_within_limit :
  forall data n st,
    generate_csv_from_json isprintable data = OK (n, st) ->
    Forall (Forall within_limit) (csvfile st).
Proof.
  intros data n st Hrun.
  destruct (run_inv isprintable data n st Hrun) as [rows [_ [_ [Hfile _]]]].
  rewrite Hfile. constructor.
  - unfold header. repeat (apply Forall_cons || apply Forall_app || split);
      try (apply Forall_nil);
      try (unfold within_limit; vm_compute; discriminate).
  - apply Forall_map. apply Forall_forall. intros row _.
    apply Forall_map. apply Forall_forall. intros cell _.
    apply clean_cell_within_limit.
Qed.

End FileMore.

(** ** The loop over the records *)

Section LoopMore.

Variable isprintable : char -> bool.

Lemma process_record_batch (idx : Z) (record_obj : json) (st st1 st' : locals) :
  process_record isprintable idx record_obj st = OK st1 ->
  write_batch idx st1 = OK st' ->
  if ((idx + 1) mod batch_size =? 0)%Z
  then all_rows_batch st' = []
       /\ rows_written st' = (rows_written st + Py.len (all_rows_batch st) + 7)%Z
  else Py.len (all_rows_batch st') = (Py.len (all_rows_batch st) + 7)%Z
       /\ rows_written st' = rows_written st.
Proof.
  intros Hstep Hwrite.
  unfold process_record, bind in Hstep.
  destruct (envelope_rows isprintable record_obj) as [rows | e] eqn:Hrows;
    [ | discriminate Hstep ].
  destruct (envelope_rows_shape isprintable record_obj rows Hrows) as [Hseven _].
  rewrite fold_clean_row in Hstep. apply OK_inj in Hstep. subst st1.
  destruct (write_batch_inv idx _ st' Hwrite) as [_ [_ [_ [_ Hcase]]]].
  revert Hcase.
  destruct ((idx + 1) mod batch_size =? 0)%Z.
  - intros [Hbatch Hwritten]. split; [ exact Hbatch | ].
    rewrite Hwritten. unfold Py.len. cbn [rows_written all_rows_batch].
    rewrite length_app, length_map. lia.
  - intros ->. unfold Py.len. cbn [rows_written all_rows_batch].
    rewrite length_app, length_map. split; [ lia | reflexivity ].
Qed.

Lemma process_records_batch (envelopes : list json) :
  forall idx st st',
    (0 <= idx)%Z ->
    Py.len (all_rows_batch st) = (7 * (idx mod batch_size))%Z ->
    process_records isprintable idx envelopes st = OK st' ->
    Py.len (all_rows_batch st')
    = (7 * ((idx + Py.len envelopes) mod batch_size))%Z
    /\ (rows_written st' + Py.len (all_rows_batch st')
        = rows_written st + Py.len (all_rows_batch st) + 7 * Py.len envelopes)%Z.
Proof.
  induction envelopes as [ | record_obj envelopes IH ]; intros idx st st' Hidx Hbatch Hrun.
  - simpl in Hrun. apply OK_inj in Hrun. subst st'.
    change (Py.len (@nil json)) with 0%Z.
    rewrite Z.add_0_r. split; [ exact Hbatch | lia ].
  - simpl in Hrun. unfold bind in Hrun.
    destruct (process_record isprintable idx record_obj st) as [st0 | e] eqn:Hstep;
      [ | discriminate Hrun ].
    destruct (write_batch idx st0) as [st1 | e] eqn:Hwrite; [ | discriminate Hrun ].
    pose proof (process_record_batch idx record_obj st st0 st1 Hstep Hwrite) as Hone.
    assert (Hnext : Py.len (all_rows_batch st1) = (7 * ((idx + 1) mod batch_size))%Z
                    /\ (rows_written st1 + Py.len (all_rows_batch st1)
                        = rows_written st + Py.len (all_rows_batch st) + 7)%Z).
    { unfold batch_size in *. revert Hone.
      destruct (Z.eqb_spec ((idx + 1) mod 1000) 0) as [Hzero | Hnonzero]; intros Hone.
      - destruct Hone as [-> ->]. rewrite Hzero.
        change (Py.len (@nil (list pystr))) with 0%Z. lia.
      - destruct Hone as [-> ->]. rewrite Hbatch.
        split; [ | lia ].
        pose proof (Z.mod_pos_bound idx 1000 ltac:(lia)).
        pose proof (Z.mod_pos_bound (idx + 1) 1000 ltac:(lia)).
        pose proof (Z.div_mod idx 1000 ltac:(lia)).
        pose proof (Z.div_mod (idx + 1) 1000 ltac:(lia)).
        assert ((idx + 1) / 1000 = idx / 1000)%Z; nia. }
    destruct Hnext as [Hbatch1 Hcount1].
    destruct (IH (idx + 1)%Z st1 st' ltac:(lia) Hbatch1 Hrun) as [Hbatch' Hcount'].
    change (Py.len (record_obj :: envelopes)) with (Z.of_nat (S (length envelopes))).
    replace (idx + Z.of_nat (S (length envelopes)))%Z
      with (idx + 1 + Py.len envelopes)%Z by (unfold Py.len; lia).
    split; [ exact Hbatch' | ].
    unfold Py.len in *. lia.
Qed.

(** X15.  The batch stays bounded.  After the loop has processed [k]
    records from the start, the batch holds the rows of the last
    [k mod 1000] records only, seven each, so fewer than 7000 rows, and
    the rows of all the records before them have been written. *)
Theorem batch_is_bounded :
  forall envelopes st,
    process_records isprintable 0 envelopes initial_locals = OK st ->
    Py.len (all_rows_batch st) = (7 * (Py.len envelopes mod 1000))%Z
    /\ rows_written st = (7 * (Py.len envelopes - Py.len envelopes mod 1000))%Z
    /\ (Py.len (all_rows_batch st) < 7000)%Z.
Proof.
  intros envelopes st Hrun.
  destruct (process_records_batch envelopes 0%Z initial_locals st
              ltac:(lia) eq_refl Hrun) as [Hbatch Hcount].
  unfold batch_size in *. simpl Z.add in Hbatch.
  pose proof (Z.mod_pos_bound (Py.len envelopes) 1000 ltac:(lia)).
  split; [ exact Hbatch | ].
  unfold initial_locals in Hcount. cbn [rows_written all_rows_batch] in Hcount.
  change (Py.len (@nil (list pystr))) with 0%Z in Hcount.
  unfold Py.len in *. split; lia.
Qed.

Lemma traverse_app {A B : Type} (f : A -> result B) (a b : list A)
  (xs ys : list B) :
  traverse f a = OK xs -> traverse f b = OK ys ->
  traverse f (a ++ b) = OK (xs ++ ys).
Proof.
  revert xs.
  induction a as [ | x a IH ]; intros xs Ha Hb.
  - apply OK_inj in Ha. subst xs. exact Hb.
  - simpl in Ha. simpl. unfold bind in *.
    destruct (f x) as [y | e]; [ | discriminate Ha ].
    destruct (traverse f a) as [rest | e]; [ | discriminate Ha ].
    apply OK_inj in Ha. subst xs.
    rewrite (IH rest eq_refl Hb). reflexivity.
Qed.

Lemma generated_rows_document (envelopes : list json) :
  generated_rows isprintable (document envelopes)
  = bind (traverse (envelope_rows isprintable) envelopes) (fun rowss => OK (concat rowss)).
Proof. reflexivity. Qed.

(** X16.  Output composes over the list of records: when the runs over
    two lists of records return, the run over the two lists joined
    returns the sum of their values, writes the file of the first
    followed by the data rows of the second, and counts the sum of their
    cut cells.  The batching leaves no mark on the file. *)
Theorem runs_compose :
  forall a b n1 st1 n2 st2,
    generate_csv_from_json isprintable (document a) = OK (n1, st1) ->
    generate_csv_from_json isprintable (document b) = OK (n2, st2) ->
    exists st,
      generate_csv_from_json isprintable (document (a ++ b)) = OK ((n1 + n2)%Z, st)
      /\ csvfile st = csvfile st1 ++ tl (csvfile st2)
      /\ problematic_rows st = (problematic_rows st1 + problematic_rows st2)%Z.
Proof.
  intros a b n1 st1 n2 st2 Hrun1 Hrun2.
  destruct (run_inv isprintable _ n1 st1 Hrun1)
    as [rows1 [Hrows1 [-> [Hfile1 [Hprob1 [_ Hcells1]]]]]].
  destruct (run_inv isprintable _ n2 st2 Hrun2)
    as [rows2 [Hrows2 [-> [Hfile2 [Hprob2 [_ Hcells2]]]]]].
  rewrite generated_rows_document in Hrows1, Hrows2. unfold bind in Hrows1, Hrows2.
  destruct (traverse (envelope_rows isprintable) a) as [rowss1 | e] eqn:Ha;
    [ | discriminate Hrows1 ].
  destruct (traverse (envelope_rows isprintable) b) as [rowss2 | e] eqn:Hb;
    [ | discriminate Hrows2 ].
  apply OK_inj in Hrows1. apply OK_inj in Hrows2. subst rows1 rows2.
  assert (Hrows : generated_rows isprintable (document (a ++ b))
                  = OK (concat rowss1 ++ concat rowss2)).
  { rewrite generated_rows_document. unfold bind.
    rewrite (traverse_app _ a b rowss1 rowss2 Ha Hb), concat_app. reflexivity. }
  assert (Hcells : encodable_rows
                     (map (map (clean_cell isprintable)) (concat rowss1 ++ concat rowss2))
                   = true).
  { rewrite map_app, encodable_rows_app, Hcells1, Hcells2. reflexivity. }
  destruct (run_ok isprintable _ _ Hrows Hcells) as [st [Hrun [Hfile [Hprob _]]]].
  exists st. split.
  - rewrite Hrun. unfold Py.len. rewrite length_app, Nat2Z.inj_add. reflexivity.
  - rewrite Hfile, Hfile1, Hfile2, Hprob, Hprob1, Hprob2. simpl tl.
    rewrite map_app. split; [ reflexivity | ].
    unfold cut_cells, Py.len. rewrite concat_app, filter_app, length_app. lia.
Qed.

Lemma traverse_strings (f : char -> pystr) (s : pystr) :
  s <> [] ->
  traverse (envelope_rows isprintable) (map (fun c => JStr (f c)) s)
  = Raise AttributeError.
Proof. destruct s; [ intros H; contradiction H; reflexivity | reflexivity ]. Qed.

(** X17.  The documents that are not a mapping with a list of records.
    A document that is not a mapping, and a [Records] that is a
    non-empty string or a non-empty mapping, fail with an
    [AttributeError]; a [Records] that is [None], a boolean or a number
    fails with a [TypeError]; a missing [Records], like an empty list,
    string or mapping, gives the header alone and the value 0. *)
Theorem degenerate_documents :
  forall data,
    (mapping data = false ->
     generate_csv_from_json isprintable data = Raise AttributeError)
    /\ (forall records,
          Py.get data (py "Records") (JList []) = OK records ->
          (sized records = false ->
           generate_csv_from_json isprintable data = Raise TypeError)
          /\ (Py.len_value records = OK 0%Z ->
              generate_csv_from_json isprintable data = OK (0%Z, initial_locals))
          /\ (forall n, Py.len_value records = OK n -> (0 < n)%Z ->
              mapping records = true \/ (exists s, records = JStr s) ->
              generate_csv_from_json isprintable data = Raise AttributeError)).
Proof.
  intros data. split.
  - intros H. destruct data; try reflexivity. discriminate H.
  - intros records Hget. unfold generate_csv_from_json, bind. rewrite Hget.
    split; [ | split ].
    + intros H. destruct records; try reflexivity; discriminate H.
    + intros H.
      destruct records as [ | b | z | text | s | items | entries ];
        try discriminate H; simpl in H; apply OK_inj in H; unfold Py.len in H;
        [ destruct s | destruct items | destruct entries ];
        try (simpl in H; lia); reflexivity.
    + intros n Hlen Hpos [Hmap | [s ->]].
      * destruct records as [ | b | z | text | s | items | entries ];
          try discriminate Hmap.
        simpl in Hlen. apply OK_inj in Hlen. subst n.
        destruct entries as [ | [key v] entries ]; [ unfold Py.len in Hpos; simpl in Hpos; lia | ].
        reflexivity.
      * simpl in Hlen. apply OK_inj in Hlen. subst n.
        destruct s as [ | c s ]; [ unfold Py.len in Hpos; simpl in Hpos; lia | ].
        reflexivity.
Qed.

End LoopMore.

(** ** The further properties at example inputs *)

Lemma loop_of_envelope_U1 :
  exists st, process_records example_table 0 [envelope_U1] initial_locals = OK st.
Proof. vm_compute. eexists. reflexivity. Qed.

Lemma run_of_envelope_anonymous :
  exists st,
    generate_csv_from_json example_table (document [JDict envelope_anonymous])
    = OK (7%Z, st).
Proof. vm_compute. eexists. reflexivity. Qed.

(** ["25122023"] becomes ["2023-12-25"]; a text of four characters gives [None]. *)
Lemma parse_date_ddmmyyyy_round_trip_witness :
  (exists out,
     parse_date_ddmmyyyy example_table (JStr (py "25122023")) = OK (Some out)
     /\ length out = 10
     /\ nth_error out 4 = Some (chr "-") /\ nth_error out 7 = Some (chr "-")
     /\ unparse_date out = py "25122023")
  /\ parse_date_ddmmyyyy example_table (JStr (py "2512")) = OK None.
Proof.
  split.
  - exact (proj1 (parse_date_ddmmyyyy_round_trip example_table (py "25122023")) eq_refl).
  - apply (proj2 (parse_date_ddmmyyyy_round_trip example_table (py "2512"))).
    discriminate.
Defined.

(** The number 25122023 has no length; [None] is answered with [None]. *)
Lemma parse_date_ddmmyyyy_raises_witness :
  parse_date_ddmmyyyy example_table (JInt 25122023) = Raise TypeError
  /\ exists answer, parse_date_ddmmyyyy example_table JNull = OK answer.
Proof.
  split.
  - exact (proj1 (parse_date_ddmmyyyy_raises example_table (JInt 25122023)) eq_refl).
  - exact (proj2 (parse_date_ddmmyyyy_raises example_table JNull) eq_refl).
Defined.

(** The PN row of the end-to-end example. *)
Lemma segment_row_layout_witness :
  generate_pn_segment_row example_table (JStr (py "U1"))
    (JDict [(py "PN", JDict [(py "name", JStr (py "Jo|hn"))])])
    (JDict [(py "PN", JStr (py "g1"))])
  = OK ([JStr (py "U1"); JStr (py "PN")] ++ [JStr (py "Jo-hn")]
        ++ repeat (JStr (py "")) 49 ++ [JStr (py "g1")] ++ repeat (JStr (py "")) 6).
Proof.
  exact (segment_row_layout example_table (py "PN")
           (generate_pn_segment_row example_table) (or_introl eq_refl)
           (JStr (py "U1")) [(py "PN", JDict [(py "name", JStr (py "Jo|hn"))])]
           (JDict [(py "PN", JStr (py "g1"))]) eq_refl
           ltac:(vm_compute; lia)).
Defined.

(** The TH row of a record that has no TH segment. *)
Lemma missing_segment_row_witness :
  generate_th_segment_row example_table (JStr (py "U1"))
    (JDict [(py "PN", JDict [(py "name", JStr (py "Jo|hn"))])])
    (JDict [(py "TH", JStr (py "g7"))])
  = OK ([JStr (py "U1"); JStr (py "TH")] ++ repeat (JStr (py "")) 50
        ++ [JStr (py "g7")] ++ repeat (JStr (py "")) 6).
Proof.
  exact (missing_segment_row example_table (py "TH")
           (generate_th_segment_row example_table)
           ltac:(unfold segment_table; simpl; auto 10)
           (JStr (py "U1")) [(py "PN", JDict [(py "name", JStr (py "Jo|hn"))])]
           (JDict [(py "TH", JStr (py "g7"))]) eq_refl eq_refl).
Defined.

(** A PN segment of 60 numbers: the row is the identity cells and the
    first 57 of them. *)
Lemma overflowing_segment_row_witness :
  (exists row,
     generate_pn_segment_row example_table (JStr (py "U1"))
       (JDict [(py "PN", JList (map (fun i => JInt (Z.of_nat i)) (seq 1 60)))])
       (JDict [(py "PN", JStr (py "g1"))]) = OK row
     /\ nth_error row 52 = Some (JStr (py "51")))
  /\ generate_pn_segment_row example_table (JStr (py "U1"))
       (JDict [(py "PN", JList (map (fun i => JInt (Z.of_nat i)) (seq 1 60)))])
       (JDict [(py "PN", JStr (py "g1"))])
     = OK ([JStr (py "U1"); JStr (py "PN")]
           ++ map (fun i => JStr (Py.str_int (Z.of_nat i))) (seq 1 57)).
Proof.
  pose proof (overflowing_segment_row example_table (py "PN")
                (generate_pn_segment_row example_table) (or_introl eq_refl)
                (JStr (py "U1"))
                [(py "PN", JList (map (fun i => JInt (Z.of_nat i)) (seq 1 60)))]
                (JDict [(py "PN", JStr (py "g1"))]) eq_refl) as [Hcell Hrow].
  split.
  - exact (Hcell ltac:(vm_compute; lia)).
  - exact (Hrow ltac:(vm_compute; lia)).
Defined.

(** A record that is a list makes the expander fail. *)
Lemma expander_failure_witness :
  generate_all_segment_rows example_table (JStr (py "U0")) (JList [JInt 1]) (JDict [])
  = Raise AttributeError.
Proof.
  exact (proj1 (proj1 (expander_failure example_table (JStr (py "U0"))
                         (JList [JInt 1]) (JDict []))) eq_refl).
Defined.

(** The file of the run over [envelope_U1]: eight rows of 59 cells. *)
Lemma written_file_is_rectangular_witness :
  exists st,
    generate_csv_from_json example_table (document [envelope_U1]) = OK (7%Z, st)
    /\ Forall (fun row => length row = 59) (csvfile st)
    /\ Py.len (csvfile st) = 8%Z.
Proof.
  destruct run_of_envelope_U1 as [st [Hrun _]].
  exists st. split; [ exact Hrun | ].
  destruct (written_file_is_rectangular example_table _ 7%Z st Hrun)
    as [Hcells [records [envelopes [Hget [Hiter [_ Hlen]]]]]].
  split; [ exact Hcells | ].
  apply OK_inj in Hget. subst records.
  apply OK_inj in Hiter. subst envelopes.
  exact Hlen.
Defined.

(** The file of the run over [envelope_long] has no cell above the limit. *)
Lemma written_cells_within_limit_witness :
  exists st,
    generate_csv_from_json example_table (document [envelope_long]) = OK (7%Z, st)
    /\ Forall (Forall within_limit) (csvfile st).
Proof.
  destruct run_of_envelope_long as [st [Hrun _]].
  exists st. split; [ exact Hrun | ].
  exact (written_cells_within_limit example_table _ 7%Z st Hrun).
Defined.

(** After one record the batch holds its seven rows and nothing is written. *)
Lemma batch_is_bounded_witness :
  exists st,
    process_records example_table 0 [envelope_U1] initial_locals = OK st
    /\ Py.len (all_rows_batch st) = 7%Z
    /\ rows_written st = 0%Z.
Proof.
  destruct loop_of_envelope_U1 as [st Hrun].
  exists st. split; [ exact Hrun | ].
  destruct (batch_is_bounded example_table [envelope_U1] st Hrun) as [Hbatch [Hwritten _]].
  split; [ exact Hbatch | exact Hwritten ].
Defined.

(** The run over two records is the runs over each, put together. *)
Lemma runs_compose_witness :
  exists st1 st2 st,
    generate_csv_from_json example_table (document [envelope_U1]) = OK (7%Z, st1)
    /\ generate_csv_from_json example_table (document [JDict envelope_anonymous])
       = OK (7%Z, st2)
    /\ generate_csv_from_json example_table
         (document [envelope_U1; JDict envelope_anonymous]) = OK (14%Z, st)
    /\ csvfile st = csvfile st1 ++ tl (csvfile st2).
Proof.
  destruct run_of_envelope_U1 as [st1 [Hrun1 _]].
  destruct run_of_envelope_anonymous as [st2 Hrun2].
  destruct (runs_compose example_table [envelope_U1] [JDict envelope_anonymous]
              7%Z st1 7%Z st2 Hrun1 Hrun2) as [st [Hrun [Hfile _]]].
  exists st1, st2, st. repeat split; assumption.
Defined.

(** A document that is [None] fails; the empty mapping gives the header alone. *)
Lemma degenerate_documents_witness :
  generate_csv_from_json example_table JNull = Raise AttributeError
  /\ generate_csv_from_json example_table (JDict []) = OK (0%Z, initial_locals)
  /\ generate_csv_from_json example_table (JDict [(py "Records", JInt 3)])
     = Raise TypeError
  /\ generate_csv_from_json example_table (JDict [(py "Records", JStr (py "abc"))])
     = Raise AttributeError.
Proof.
  split; [ | split; [ | split ] ].
  - exact (proj1 (degenerate_documents example_table JNull) eq_refl).
  - exact (proj1 (proj2 (proj2 (degenerate_documents example_table (JDict []))
                           (JList []) eq_refl)) eq_refl).
  - exact (proj1 (proj2 (degenerate_documents example_table
                           (JDict [(py "Records", JInt 3)])) (JInt 3) eq_refl) eq_refl).
  - exact (proj2 (proj2 (proj2 (degenerate_documents example_table
                                  (JDict [(py "Records", JStr (py "abc"))]))
                           (JStr (py "abc")) eq_refl))
             3%Z eq_refl eq_refl (or_intror (ex_intro _ (py "abc") eq_refl))).
Defined.

(** ** What the columns hold *)

Section ColumnsMore.

Variable isprintable : char -> bool.

Lemma sanitized_word (w : pystr) :
  word w -> ~ In (chr "|") w -> sanitized w.
Proof.
  intros Hword Hpipe.
  change w with (Py.join (py " ") [w]).
  apply sanitized_join_words.
  - constructor; [ exact Hword | constructor ].
  - intros w0 [<- | []]. exact Hpipe.
Qed.

Lemma segment_code_sanitized (code : pystr)
  (builder : json -> json -> json -> result (list json)) :
  In (code, builder) (segment_table isprintable) -> sanitized code.
Proof.
  unfold segment_table. simpl.
  intros [H | [H | [H | [H | [H | [H | [H | []]]]]]]];
    injection H as <- _; apply sanitized_word;
    try (split; [ discriminate | repeat constructor ]);
    simpl; intuition discriminate.
Qed.

Lemma Forall_cut {A : Type} (P : A -> Prop) (n : nat) (l : list A) :
  Forall P l -> Forall P (firstn n l).
Proof.
  intros H. revert n.
  induction H as [ | x l Hx _ IH ]; intros [ | n ]; simpl; constructor;
    [ exact Hx | apply IH ].
Qed.

Lemma text_cells_of_fields (fields : list pystr) :
  Forall sanitized fields -> Forall text_cell (map JStr fields).
Proof.
  intros H. apply Forall_map. revert H. apply Forall_impl.
  intros f Hf. exists f. split; [ reflexivity | exact Hf ].
Qed.

Lemma text_cells_of_blanks (n : nat) : Forall text_cell (repeat (JStr (py "")) n).
Proof.
  apply Forall_forall. intros cell Hin. apply repeat_spec in Hin. subst cell.
  exists (py ""). split; [ reflexivity | exact (sanitized_empty isprintable) ].
Qed.

Lemma segment_row_text_cells (code : pystr) (default unique_id record garbage : json)
  (row : list json) :
  sanitized code ->
  segment_row isprintable code default unique_id record garbage = OK row ->
  exists rest, row = unique_id :: rest /\ Forall text_cell rest.
Proof.
  intros Hcode. unfold segment_row, bind.
  destruct (Py.get record code default) as [segment | e]; [ | discriminate ].
  cbv zeta.
  assert (Hfields : exists fields,
             Forall sanitized fields
             /\ (if Py.truthy segment
                 then [unique_id; JStr code]
                      ++ map JStr (flatten_segment_to_fields isprintable segment false)
                 else [unique_id; JStr code])
                = [unique_id; JStr code] ++ map JStr fields).
  { destruct (Py.truthy segment).
    - eexists. split; [ apply flatten_sanitized | reflexivity ].
    - exists []. split; [ constructor | reflexivity ]. }
  destruct Hfields as [fields [Hfields ->]].
  assert (Hresidual : forall residual, sanitized residual ->
            exists rest,
              firstn 59 ((pad 52 ([unique_id; JStr code] ++ map JStr fields)
                          ++ [JStr residual]) ++ repeat (JStr (py "")) 6)
              = unique_id :: rest
              /\ Forall text_cell rest).
  { intros residual Hres. unfold pad. rewrite <- !app_assoc.
    change ([unique_id; JStr code] ++ ?t) with (unique_id :: JStr code :: t).
    rewrite (firstn_cons 58). eexists. split; [ reflexivity | ].
    apply Forall_cut. constructor.
    - exists code. split; [ reflexivity | exact Hcode ].
    - apply Forall_app. split; [ apply text_cells_of_fields; exact Hfields | ].
      apply Forall_app. split; [ apply text_cells_of_blanks | ].
      apply Forall_app. split; [ | apply text_cells_of_blanks ].
      constructor; [ | constructor ].
      exists residual. split; [ reflexivity | exact Hres ]. }
  destruct (Py.truthy garbage);
    [ destruct (Py.get garbage code JNull) as [g | e]; [ | discriminate ] | ];
    intros H; apply OK_inj in H; subst row; apply Hresidual.
  - apply safe_value_sanitized.
  - exact (sanitized_empty isprintable).
Qed.

(** X18.  In a row that one of the seven builders returns, every cell
    after [unique_id] is a string of the shape the sanitizer guarantees
    (no newline, carriage return or pipe, single plain spaces only,
    trimmed); [unique_id] itself is carried over as it came. *)
Theorem segment_row_cells_are_clean :
  forall code builder, In (code, builder) (segment_table isprintable) ->
  forall unique_id record garbage_per_segment row,
    builder unique_id record garbage_per_segment = OK row ->
    exists rest, row = unique_id :: rest /\ Forall text_cell rest.
Proof.
  intros code builder Hin unique_id record garbage row Hrow.
  destruct (in_segment_table isprintable code builder Hin) as [default [_ ->]].
  exact (segment_row_text_cells code default unique_id record garbage row
           (segment_code_sanitized code _ Hin) Hrow).
Qed.

End ColumnsMore.

Section FileColumns.

Variable isprintable : char -> bool.

Lemma in_cut {A : Type} (x : A) (n : nat) (l : list A) :
  In x (firstn n l) -> In x l.
Proof.
  revert n. induction l as [ | y l IH ]; intros [ | n ]; simpl; try tauto.
  intros [H | H]; [ left; exact H | right; exact (IH n H) ].
Qed.

Lemma not_in_by_eval (c : char) (s : pystr) :
  existsb (N.eqb c) s = false -> ~ In c s.
Proof.
  intros H Hin.
  assert (Htrue : existsb (N.eqb c) s = true).
  { apply existsb_exists. exists c. split; [ exact Hin | apply N.eqb_refl ]. }
  rewrite H in Htrue. discriminate Htrue.
Qed.

Lemma header_free_of_breaks : Forall free_of_breaks header.
Proof.
  assert (H : forallb (fun s => negb (existsb (N.eqb (chr "010")) s)
                                && negb (existsb (N.eqb (chr "013")) s)
                                && negb (existsb (N.eqb (chr "|")) s)) header = true)
    by (vm_compute; reflexivity).
  rewrite forallb_forall in H. apply Forall_forall. intros s Hs.
  specialize (H s Hs). apply andb_prop in H. destruct H as [H Hbar].
  apply andb_prop in H. destruct H as [Hnl Hcr].
  repeat split; apply not_in_by_eval; apply negb_true_iff; assumption.
Qed.

Lemma segment_codes_sanitized : Forall sanitized segment_codes.
Proof.
  unfold segment_codes.
  repeat constructor; apply sanitized_word;
    try (split; [ discriminate | repeat constructor ]);
    simpl; intuition discriminate.
Qed.

Lemma clean_text_cell (cell : json) :
  text_cell cell -> free_of_breaks (clean_cell isprintable cell).
Proof.
  intros [s [-> Hs]].
  destruct Hs as [Hnl [Hcr [Hbar [_ [_ Hstrip]]]]].
  destruct (clean_cell_trimmed isprintable s Hstrip) as [-> _].
  repeat split; intros Hin; apply in_cut in Hin; contradiction.
Qed.

(** The rows of an envelope: each names its segment in its second cell,
    in the order of the codes, and all its cells after the first are
    clean text. *)
Lemma envelope_rows_cells (record_obj : json) (rows : list (list json)) :
  envelope_rows isprintable record_obj = OK rows ->
  map (fun row => nth_error row 1) rows = map (fun code => Some (JStr code)) segment_codes
  /\ Forall (fun row => exists first rest, row = first :: rest /\ Forall text_cell rest)
       rows.
Proof.
  intros Hrows.
  destruct (well_shaped record_obj) eqn:Hshape.
  - destruct record_obj as [ | b | z | text | s | items | entries ];
      try discriminate Hshape.
    simpl in Hshape. apply andb_prop in Hshape. destruct Hshape as [Hrecord Hgarbage].
    change (envelope_rows isprintable (JDict entries))
      with (generate_all_segment_rows isprintable
              (field (py "unique_id") JNull entries)
              (field (py "record") (JDict []) entries)
              (field (py "garbage_per_segment") (JDict []) entries)) in Hrows.
    destruct (expander_unfold isprintable (field (py "unique_id") JNull entries)
                _ _ Hrecord Hgarbage)
      as [pn [id [pt [ec [pa [tl [th [Hpn [Hid [Hpt [Hec [Hpa [Htl [Hth Hall]]]]]]]]]]]]]].
    rewrite Hall in Hrows. apply OK_inj in Hrows. subst rows.
    pose proof segment_codes_sanitized as Hcodes.
    unfold segment_codes in Hcodes.
    inversion Hcodes as [ | ? ? Hc1 Hcodes1 ]; subst.
    inversion Hcodes1 as [ | ? ? Hc2 Hcodes2 ]; subst.
    inversion Hcodes2 as [ | ? ? Hc3 Hcodes3 ]; subst.
    inversion Hcodes3 as [ | ? ? Hc4 Hcodes4 ]; subst.
    inversion Hcodes4 as [ | ? ? Hc5 Hcodes5 ]; subst.
    inversion Hcodes5 as [ | ? ? Hc6 Hcodes6 ]; subst.
    inversion Hcodes6 as [ | ? ? Hc7 _ ]; subst.
    split.
    + destruct (segment_row_head _ _ _ _ _ _ _ Hpn) as [? ->].
      destruct (segment_row_head _ _ _ _ _ _ _ Hid) as [? ->].
      destruct (segment_row_head _ _ _ _ _ _ _ Hpt) as [? ->].
      destruct (segment_row_head _ _ _ _ _ _ _ Hec) as [? ->].
      destruct (segment_row_head _ _ _ _ _ _ _ Hpa) as [? ->].
      destruct (segment_row_head _ _ _ _ _ _ _ Htl) as [? ->].
      destruct (segment_row_head _ _ _ _ _ _ _ Hth) as [? ->].
      reflexivity.
    + pose proof (segment_row_text_cells isprintable _ _ _ _ _ _ Hc1 Hpn) as [r1 [E1 H1]].
      pose proof (segment_row_text_cells isprintable _ _ _ _ _ _ Hc2 Hid) as [r2 [E2 H2]].
      pose proof (segment_row_text_cells isprintable _ _ _ _ _ _ Hc3 Hpt) as [r3 [E3 H3]].
      pose proof (segment_row_text_cells isprintable _ _ _ _ _ _ Hc4 Hec) as [r4 [E4 H4]].
      pose proof (segment_row_text_cells isprintable _ _ _ _ _ _ Hc5 Hpa) as [r5 [E5 H5]].
      pose proof (segment_row_text_cells isprintable _ _ _ _ _ _ Hc6 Htl) as [r6 [E6 H6]].
      pose proof (segment_row_text_cells isprintable _ _ _ _ _ _ Hc7 Hth) as [r7 [E7 H7]].
      repeat constructor; eexists; eexists; split; eassumption.
  - rewrite (envelope_rows_malformed isprintable record_obj Hshape) in Hrows.
    discriminate Hrows.
Qed.

Lemma traverse_cells (envelopes : list json) (rowss : list (list (list json))) :
  traverse (envelope_rows isprintable) envelopes = OK rowss ->
  map (fun row => nth_error row 1) (concat rowss)
  = concat (repeat (map (fun code => Some (JStr code)) segment_codes) (length envelopes))
  /\ Forall (fun row => exists first rest, row = first :: rest /\ Forall text_cell rest)
       (concat rowss).
Proof.
  revert rowss.
  induction envelopes as [ | record_obj envelopes IH ]; intros rowss H.
  - apply OK_inj in H. subst rowss. split; [ reflexivity | constructor ].
  - simpl in H. unfold bind in H.
    destruct (envelope_rows isprintable record_obj) as [rows | e] eqn:Hrows;
      [ | discriminate H ].
    destruct (traverse (envelope_rows isprintable) envelopes) as [rest | e];
      [ | discriminate H ].
    apply OK_inj in H. subst rowss.
    destruct (envelope_rows_cells record_obj rows Hrows) as [Hnames Hcells].
    destruct (IH rest eq_refl) as [Hnames' Hcells'].
    cbn [concat repeat length]. split.
    + rewrite map_app, Hnames, Hnames'. reflexivity.
    + apply Forall_app. split; assumption.
Qed.

Lemma clean_segment_code (code : pystr) :
  In code segment_codes -> clean_cell isprintable (JStr code) = code.
Proof.
  unfold segment_codes. simpl.
  intros [<- | [<- | [<- | [<- | [<- | [<- | [<- | []]]]]]]]; reflexivity.
Qed.

(** X19.  Whenever [generate_csv_from_json] returns, the Segment_Name
    column of the data rows reads PN, ID, PT, EC, PA, TL, TH, over and
    over, once per record. *)
Theorem segment_names_cycle :
  forall data n st,
    generate_csv_from_json isprintable data = OK (n, st) ->
    exists k,
      n = (7 * Z.of_nat k)%Z
      /\ map (fun row => nth_error row 1) (tl (csvfile st))
         = concat (repeat (map (@Some pystr) segment_codes) k).
Proof.
  intros data n st Hrun.
  destruct (run_inv isprintable data n st Hrun) as [rows [Hrows [Hn [Hfile _]]]].
  destruct (generated_rows_inv isprintable data rows Hrows)
    as [records [envelopes [rowss [_ [_ [Htraverse ->]]]]]].
  destruct (traverse_shape isprintable envelopes rowss Htraverse) as [Hlen _].
  destruct (traverse_cells envelopes rowss Htraverse) as [Hnames _].
  exists (length envelopes). split.
  - rewrite Hn. exact Hlen.
  - rewrite Hfile. simpl tl. rewrite map_map.
    transitivity (map (option_map (clean_cell isprintable))
                    (map (fun row => nth_error row 1) (concat rowss))).
    { rewrite map_map. apply map_ext. intros row. apply nth_error_map. }
    rewrite Hnames. clear.
    induction (length envelopes) as [ | k IH ]; [ reflexivity | ].
    cbn [repeat concat]. rewrite map_app, IH. f_equal.
Qed.

(** X20.  Whenever [generate_csv_from_json] returns, no cell of the file
    outside the Unique_ID column holds a newline, a carriage return or a
    pipe. *)
Theorem written_columns_free_of_breaks :
  forall data n st,
    generate_csv_from_json isprintable data = OK (n, st) ->
    Forall (fun row => Forall free_of_breaks (tl row)) (csvfile st).
Proof.
  intros data n st Hrun.
  destruct (run_inv isprintable data n st Hrun) as [rows [Hrows [_ [Hfile _]]]].
  destruct (generated_rows_inv isprintable data rows Hrows)
    as [records [envelopes [rowss [_ [_ [Htraverse ->]]]]]].
  destruct (traverse_cells envelopes rowss Htraverse) as [_ Hcells].
  rewrite Hfile. constructor.
  - pose proof header_free_of_breaks as H. inversion H; assumption.
  - apply Forall_map. revert Hcells. apply Forall_impl.
    intros row [first [rest [-> Hrest]]].
    cbn [map tl]. apply Forall_map. revert Hrest. apply Forall_impl.
    exact clean_text_cell.
Qed.

End FileColumns.

Lemma pn_row_of_example :
  generate_pn_segment_row example_table (JStr (py "U1"))
    (JDict [(py "PN", JDict [(py "name", JStr (py "Jo|hn"))])])
    (JDict [(py "PN", JStr (py "g1"))])
  = OK ([JStr (py "U1"); JStr (py "PN"); JStr (py "Jo-hn")]
        ++ repeat (JStr (py "")) 49 ++ [JStr (py "g1")] ++ repeat (JStr (py "")) 6).
Proof. vm_compute. reflexivity. Qed.

(** The cells after [unique_id] of the PN row of the end-to-end example. *)
Lemma segment_row_cells_are_clean_witness :
  exists rest,
    [JStr (py "U1"); JStr (py "PN"); JStr (py "Jo-hn")]
    ++ repeat (JStr (py "")) 49 ++ [JStr (py "g1")] ++ repeat (JStr (py "")) 6
    = JStr (py "U1") :: rest
    /\ Forall text_cell rest.
Proof.
  exact (segment_row_cells_are_clean example_table (py "PN")
           (generate_pn_segment_row example_table) (or_introl eq_refl)
           (JStr (py "U1"))
           (JDict [(py "PN", JDict [(py "name", JStr (py "Jo|hn"))])])
           (JDict [(py "PN", JStr (py "g1"))]) _ pn_row_of_example).
Defined.

(** The Segment_Name column of the run over [envelope_U1]. *)
Lemma segment_names_cycle_witness :
  exists st,
    generate_csv_from_json example_table (document [envelope_U1]) = OK (7%Z, st)
    /\ map (fun row => nth_error row 1) (tl (csvfile st))
       = map (@Some pystr) segment_codes.
Proof.
  destruct run_of_envelope_U1 as [st [Hrun _]].
  exists st. split; [ exact Hrun | ].
  destruct (segment_names_cycle example_table _ 7%Z st Hrun) as [k [Hk Hnames]].
  assert (Hone : k = 1) by lia. subst k.
  rewrite Hnames. reflexivity.
Defined.

(** The run over [envelope_U1] writes no newline, carriage return or pipe
    outside the first column. *)
Lemma written_columns_free_of_breaks_witness :
  exists st,
    generate_csv_from_json example_table (document [envelope_U1]) = OK (7%Z, st)
    /\ Forall (fun row => Forall free_of_breaks (tl row)) (csvfile st).
Proof.
  destruct run_of_envelope_U1 as [st [Hrun _]].
  exists st. split; [ exact Hrun | ].
  exact (written_columns_free_of_breaks example_table _ 7%Z st Hrun).
Defined.
